(** * The markdown rendering pipeline of the blog's Eleventy configuration

    The repository configures Eleventy's markdown engine (markdown-it) in
    three small configuration modules:

    - a footnote configuration             ([FootnoteConfig]),
    - a syntax-highlighting configuration  ([ShikiConfig]),
    - a footnote + table-of-contents one   ([TocConfig]).

    Each module exports a function of the [eleventyConfig] object.  The
    closures they register are represented first-order: one constructor per
    closure of the source, carrying the variables the closure captures, and
    one interpreter clause holding the closure's body. *)

From Stdlib Require Import List NArith Bool Arith Lia String Ascii DecimalString.
Import ListNotations.

Set Implicit Arguments.
#[local] Set Warnings "-register-all".

(* ================================================================= *)
(** ** JavaScript strings *)

(** A JavaScript string is a sequence of UTF-16 code units. *)
Definition jsstring := list N.

Definition lit (s : string) : jsstring :=
  map N_of_ascii (list_ascii_of_string s).

(** [a === b] on strings. *)
Fixpoint jseqb (a b : jsstring) : bool :=
  match a, b with
  | [], [] => true
  | x :: a', y :: b' => (x =? y)%N && jseqb a' b'
  | _, _ => false
  end.

(** The double quote character, U+0022. *)
Definition dq : jsstring := [34%N].

(** [a] occurs in [b] as a contiguous substring. *)
Definition contains (b a : jsstring) : Prop :=
  exists pre post, b = pre ++ a ++ post.

(** ECMAScript WhiteSpace and LineTerminator code points: the characters
    removed by [String.prototype.trim] and matched by the regexp class \s. *)
Definition isWhiteSpace (c : N) : bool :=
  ((9 <=? c) && (c <=? 13) || (c =? 32) || (c =? 160) || (c =? 5760)
   || (8192 <=? c) && (c <=? 8202) || (c =? 8232) || (c =? 8233)
   || (c =? 8239) || (c =? 8287) || (c =? 12288) || (c =? 65279))%N.

Fixpoint trimStart (s : jsstring) : jsstring :=
  match s with
  | c :: s' => if isWhiteSpace c then trimStart s' else s
  | [] => []
  end.

Definition trimEnd (s : jsstring) : jsstring := rev (trimStart (rev s)).

(** [String.prototype.trim]. *)
Definition trim (s : jsstring) : jsstring := trimEnd (trimStart s).

(** [s.indexOf(p) === 0]. *)
Fixpoint startsWith (p s : jsstring) : bool :=
  match p, s with
  | [], _ => true
  | a :: p', b :: s' => (a =? b)%N && startsWith p' s'
  | _ :: _, [] => false
  end.

(* ================================================================= *)
(** ** Exceptions *)

Inductive Error : Type :=
| IOError (path : jsstring)          (* fs.readFileSync *)
| SyntaxError (text : jsstring)      (* JSON.parse *)
| ModuleNotFound (spec : jsstring)   (* import() *)
| ThemeError (theme : jsstring)      (* the highlighter: theme not loaded *)
| LanguageError (lang : jsstring)    (* the highlighter: language not loaded *)
| GrammarError.                      (* the highlighter: grammar data rejected *)

Inductive result (A : Type) : Type :=
| Ok (a : A)
| Throw (e : Error).
Arguments Ok {A} a.
Arguments Throw {A} e.

Definition isOk {A} (r : result A) : bool :=
  match r with Ok _ => true | Throw _ => false end.

(* ================================================================= *)
(** ** The outside world: file system, JSON, the shiki package *)

(** The value of [JSON.parse]: structured data. *)
Inductive Json : Type :=
| JNull
| JBool (b : bool)
| JNumber (lexeme : jsstring)
| JString (s : jsstring)
| JArray (items : list Json)
| JObject (members : list (jsstring * Json)).

(** An entry of the [langs] array handed to shiki: the name of a language
    bundled with shiki, or a grammar given as data. *)
Inductive LangInput : Type :=
| BundledLang (name : jsstring)
| GrammarData (grammar : Json).

Record HighlighterOptions : Type := {
  opt_themes : list jsstring;
  opt_langs : list LangInput
}.

Record CodeOptions : Type := {
  code_lang : jsstring;
  code_theme : jsstring
}.

(** The object returned by [shiki.getHighlighter]; [codeToHtml] is
    synchronous and may throw. *)
Record Highlighter : Type := {
  codeToHtml : jsstring -> CodeOptions -> result jsstring
}.

(** The namespace object of the shiki package. *)
Record Shiki : Type := {
  getHighlighter : HighlighterOptions -> result Highlighter
}.

(** What the configuration reaches outside itself: [fs.readFileSync],
    [JSON.parse] and the dynamic [import]. *)
Record Env : Type := {
  readFileSync : jsstring -> result jsstring;
  JSON_parse : jsstring -> result Json;
  import : jsstring -> result Shiki
}.

(* ================================================================= *)
(** ** The markdown-it handle and the closures registered on it *)

Inductive Plugin : Type :=
| markdownItFootnote
| markdownItTableOfContents.

Record TocOptions : Type := {
  listType : jsstring;
  includeLevel : list nat
}.

(** The options argument of [mdLib.use(plugin, options)]. *)
Inductive PluginOptions : Type :=
| NoOptions
| TocOpts (o : TocOptions).

(** The closure [(code, lang) => highlighter.codeToHtml(code.trim(),
    { lang, theme })] with the local variable it captures. *)
Inductive HighlightFn : Type :=
| ShikiHighlight (highlighter : Highlighter).

(** The object literal given to [mdLib.set]: a key is present or absent. *)
Record MdOptionsPatch : Type := {
  patch_highlight : option HighlightFn
}.

(** The state of a markdown-it instance that the configuration can change:
    the [highlight] option and the plugins applied, in order of application. *)
Record MdLib : Type := {
  md_highlight : option HighlightFn;
  md_plugins : list (Plugin * PluginOptions)
}.

(** A fresh markdown-it instance, as the host creates it. *)
Definition markdownIt : MdLib :=
  {| md_highlight := None; md_plugins := [] |}.

(** [mdLib.use(plugin, options)]: applies the plugin at once. *)
Definition md_use (p : Plugin) (o : PluginOptions) (md : MdLib) : MdLib :=
  {| md_highlight := md_highlight md;
     md_plugins := md_plugins md ++ [(p, o)] |}.

(** [mdLib.set(patch)]: overwrites the keys present in [patch]. *)
Definition md_set (patch : MdOptionsPatch) (md : MdLib) : MdLib :=
  {| md_highlight := match patch_highlight patch with
                     | Some h => Some h
                     | None => md_highlight md
                     end;
     md_plugins := md_plugins md |}.

(** The callbacks given to [eleventyConfig.amendLibrary], one constructor
    per arrow function of the source. *)
Inductive Amendment : Type :=
| UseFootnote      (* mdLib => mdLib.use(markdownItFootnote) *)
| Empty            (* () => {} *)
| SetHighlight (highlighter : Highlighter)
                   (* (mdLib) => mdLib.set({ highlight: ... }) *)
| UseFootnoteToc.  (* mdLib => { mdLib.use(footnote); mdLib.use(toc, {...}) } *)

(** The listeners given to [eleventyConfig.on]: the [async () => ...] of
    the highlighting configuration, with the value of [langs] it reads. *)
Inductive Handler : Type :=
| ShikiSetup (langs : list LangInput).

(** The part of Eleventy's configuration object the modules write to. *)
Record UserConfig : Type := {
  libraryAmendments : list (jsstring * Amendment);
  listeners : list (jsstring * Handler)
}.

Definition emptyConfig : UserConfig :=
  {| libraryAmendments := []; listeners := [] |}.

(* ================================================================= *)
(** ** Effects: a trace of outside calls, the shared configuration, exceptions *)

Inductive Event : Type :=
| ReadFile (path : jsstring)
| Import (spec : jsstring)
| GetHighlighter (opts : HighlighterOptions)
| CodeToHtml (code : jsstring) (opts : CodeOptions).

(** Resource loading: everything but a call to the constructed highlighter. *)
Definition isLoad (e : Event) : bool :=
  match e with
  | CodeToHtml _ _ => false
  | _ => true
  end.

Record Outcome (A : Type) : Type := {
  trace : list Event;
  store : UserConfig;
  value : result A
}.

Definition M (A : Type) : Type := UserConfig -> Outcome A.

Definition ret {A} (a : A) : M A :=
  fun s => {| trace := []; store := s; value := Ok a |}.

Definition bind {A B} (m : M A) (f : A -> M B) : M B :=
  fun s =>
    let o := m s in
    match value o with
    | Ok a =>
        let o' := f a (store o) in
        {| trace := trace o ++ trace o'; store := store o'; value := value o' |}
    | Throw e => {| trace := trace o; store := store o; value := Throw e |}
    end.

Notation "x <- m ;; k" := (bind m (fun x => k))
  (at level 61, m at next level, right associativity).
Notation "m ;;; k" := (bind m (fun _ => k))
  (at level 61, right associativity).

(** An outside call: logged, then its result returned or thrown. *)
Definition call {A} (ev : Event) (r : result A) : M A :=
  fun s => {| trace := [ev]; store := s; value := r |}.

(** A result computed without any outside call. *)
Definition lift {A} (r : result A) : M A :=
  fun s => {| trace := []; store := s; value := r |}.

Definition get : M UserConfig :=
  fun s => {| trace := []; store := s; value := Ok s |}.

Definition put (s' : UserConfig) : M unit :=
  fun _ => {| trace := []; store := s'; value := Ok tt |}.

Fixpoint mapM {A B} (f : A -> M B) (l : list A) : M (list B) :=
  match l with
  | [] => ret []
  | a :: l' => b <- f a ;; bs <- mapM f l' ;; ret (b :: bs)
  end.

(* ================================================================= *)
(** ** Documents *)

(** The parser of markdown-it is outside the repository.  A document is
    taken as the parser sees it, cut into the constructs the configured
    extensions and the fence rule react to. *)
Inductive Inline : Type :=
| Text (s : jsstring)
| FootnoteRef (label : jsstring)          (* [^label] *)
| InlineHtml (html : jsstring).

Inductive Block : Type :=
| Paragraph (content : list Inline)
| Heading (level : nat) (title : jsstring)
| Fence (info content : jsstring)         (* info: markdown escapes resolved *)
| TocMarker                               (* [[toc]] *)
| FootnoteDef (label body : jsstring)     (* [^label]: body *)
| HtmlBlock (html : jsstring).

Definition Document := list Block.

(** [escapeHtml] of markdown-it's utilities. *)
Definition escapeChar (c : N) : jsstring :=
  if (c =? 38)%N then lit "&amp;"
  else if (c =? 60)%N then lit "&lt;"
  else if (c =? 62)%N then lit "&gt;"
  else if (c =? 34)%N then lit "&quot;"
  else [c].

Definition escapeHtml (s : jsstring) : jsstring := flat_map escapeChar s.

Definition decimal (n : nat) : jsstring :=
  lit (NilZero.string_of_uint (Nat.to_uint n)).

(* ================================================================= *)
(** ** The footnote and table-of-contents plugins *)

Module Footnote.

(** Modelled from the spec: the package markdown-it-footnote, which the
    configuration requires and whose code is not in the repository.  It
    "recognizes footnote-reference and footnote-definition syntax in the
    source and rewrites them into linked, numbered HTML footnote markers and
    a rendered footnote section at document end". *)
Definition labels (doc : Document) : list jsstring :=
  flat_map (fun b => match b with FootnoteDef l _ => [l] | _ => [] end) doc.

(** Modelled from the spec: the number of a footnote ("numbered"), its
    position among the definitions. *)
Fixpoint number (l : jsstring) (ls : list jsstring) : option nat :=
  match ls with
  | [] => None
  | l' :: ls' =>
      if jseqb l l' then Some 1
      else option_map S (number l ls')
  end.

(** Modelled from the spec: a "linked, numbered HTML footnote marker". *)
Definition marker (n : nat) : jsstring :=
  lit "<sup class=" ++ dq ++ lit "footnote-ref" ++ dq ++ lit "><a href="
  ++ dq ++ lit "#fn" ++ decimal n ++ dq ++ lit " id=" ++ dq ++ lit "fnref"
  ++ decimal n ++ dq ++ lit ">[" ++ decimal n ++ lit "]</a></sup>".

(** Modelled from the spec: a reference to a defined footnote is rewritten
    into its marker. *)
Definition rewriteInline (ls : list jsstring) (i : Inline) : Inline :=
  match i with
  | FootnoteRef l =>
      match number l ls with
      | Some n => InlineHtml (marker n)
      | None => FootnoteRef l
      end
  | _ => i
  end.

(** Modelled from the spec: definitions leave the flow of the document. *)
Definition rewriteBlock (ls : list jsstring) (b : Block) : list Block :=
  match b with
  | Paragraph c => [Paragraph (map (rewriteInline ls) c)]
  | FootnoteDef _ _ => []
  | _ => [b]
  end.

(** Modelled from the spec: the entries of the footnote section. *)
Fixpoint items (n : nat) (doc : Document) : jsstring :=
  match doc with
  | [] => []
  | FootnoteDef _ body :: doc' =>
      lit "<li id=" ++ dq ++ lit "fn" ++ decimal n ++ dq ++ lit "><p>"
      ++ escapeHtml body ++ lit " <a href=" ++ dq ++ lit "#fnref"
      ++ decimal n ++ dq ++ lit ">back</a></p></li>" ++ [10%N]
      ++ items (S n) doc'
  | _ :: doc' => items n doc'
  end.

(** Modelled from the spec: the "rendered footnote section at document
    end". *)
Definition section (doc : Document) : list Block :=
  match labels doc with
  | [] => []
  | _ :: _ =>
      [HtmlBlock (lit "<section class=" ++ dq ++ lit "footnotes" ++ dq
                  ++ lit "><ol>" ++ [10%N] ++ items 1 doc
                  ++ lit "</ol></section>" ++ [10%N])]
  end.

(** Modelled from the spec: the footnote extension as one transformation
    step of the pipeline. *)
Definition pass (doc : Document) : Document :=
  flat_map (rewriteBlock (labels doc)) doc ++ section doc.

End Footnote.

Module Toc.

(** Modelled from the spec: the package markdown-it-table-of-contents,
    which the configuration requires and whose code is not in the
    repository.  It "scans the document's heading elements after markdown
    parsing, and at the location of a designated placeholder token, emits a
    nested list (ordered or unordered, per configuration) linking to each
    heading, restricted to a configured inclusive range of heading levels". *)
Definition headings (doc : Document) : list (nat * jsstring) :=
  flat_map (fun b => match b with Heading l t => [(l, t)] | _ => [] end) doc.

(** Modelled from the spec: the options are "per configuration"; these
    stand for the plugin's own when [use] is given none. *)
Definition defaults : TocOptions :=
  {| listType := lit "ul"; includeLevel := [1; 2] |}.

Definition options (o : PluginOptions) : TocOptions :=
  match o with
  | TocOpts o' => o'
  | NoOptions => defaults
  end.

(** Modelled from the spec: "restricted to a configured inclusive range of
    heading levels", given in the source as the array of the levels. *)
Definition included (o : TocOptions) (h : nat * jsstring) : bool :=
  existsb (Nat.eqb (fst h)) (includeLevel o).

(** Modelled from the spec: an entry of the "nested list": the link to a
    heading and, nested in it, the entries of the headings below it. *)
Inductive Entry : Type :=
| entry (level : nat) (title : jsstring) (children : list Entry).

(** Modelled from the spec: the headings that follow a heading of level
    [l] and are deeper than it, up to the first that is not, and the
    headings from there on. *)
Fixpoint span (l : nat) (hs : list (nat * jsstring))
  : list (nat * jsstring) * list (nat * jsstring) :=
  match hs with
  | [] => ([], [])
  | h :: hs' =>
      if l <? fst h
      then let (below, others) := span l hs' in (h :: below, others)
      else ([], hs)
  end.

(** Modelled from the spec: the "nested list ... linking to each heading":
    a heading takes as its entries the deeper headings that follow it; the
    headings after them are its siblings.  [n] bounds the number of
    headings. *)
Fixpoint forestN (n : nat) (hs : list (nat * jsstring)) : list Entry :=
  match n with
  | 0 => []
  | S n' =>
      match hs with
      | [] => []
      | (l, title) :: rest =>
          entry l title (forestN n' (fst (span l rest)))
          :: forestN n' (snd (span l rest))
      end
  end.

Definition forest (hs : list (nat * jsstring)) : list Entry :=
  forestN (List.length hs) hs.

(** Modelled from the spec: the target of a link, derived from the title. *)
Definition lower (c : N) : N :=
  if ((65 <=? c) && (c <=? 90))%N then (c + 32)%N else c.

Fixpoint slugAux (inSpace : bool) (s : jsstring) : jsstring :=
  match s with
  | [] => []
  | c :: s' =>
      if isWhiteSpace c
      then (if inSpace then slugAux true s' else 45%N :: slugAux true s')
      else lower c :: slugAux false s'
  end.

Definition slugify (title : jsstring) : jsstring := slugAux false (trim title).

(** Modelled from the spec: the markup of an entry, the link and then the
    list of the entries nested in it, when there are any; the lists are
    elements [t] ("ordered or unordered, per configuration"). *)
Fixpoint entryHtml (t : jsstring) (e : Entry) : jsstring :=
  match e with
  | entry _ title children =>
      lit "<li><a href=" ++ dq ++ lit "#" ++ escapeHtml (slugify title) ++ dq
      ++ lit ">" ++ escapeHtml title ++ lit "</a>"
      ++ match children with
         | [] => []
         | _ :: _ =>
             lit "<" ++ t ++ lit ">" ++ flat_map (entryHtml t) children
             ++ lit "</" ++ t ++ lit ">"
         end
      ++ lit "</li>"
  end.

(** Modelled from the spec: the one list emitted, empty when no heading is
    in range. *)
Definition listHtml (t : jsstring) (es : list Entry) : jsstring :=
  lit "<" ++ t ++ lit ">" ++ flat_map (entryHtml t) es ++ lit "</" ++ t
  ++ lit ">".

(** Modelled from the spec: the entries emitted for a document under
    options [o]. *)
Definition emit (o : TocOptions) (doc : Document) : list Entry :=
  forest (filter (included o) (headings doc)).

Definition containerOpen : jsstring :=
  lit "<div class=" ++ dq ++ lit "table-of-contents" ++ dq ++ lit ">".

Definition containerClose : jsstring := lit "</div>" ++ [10%N].

Definition html (o : TocOptions) (doc : Document) : jsstring :=
  containerOpen ++ listHtml (listType o) (emit o doc) ++ containerClose.

(** Modelled from the spec: the list is emitted "at the location of a
    designated placeholder token". *)
Definition rewriteBlock (o : TocOptions) (doc : Document) (b : Block) : Block :=
  match b with
  | TocMarker => HtmlBlock (html o doc)
  | _ => b
  end.

(** Modelled from the spec: the table-of-contents extension as one
    transformation step of the pipeline. *)
Definition pass (o : TocOptions) (doc : Document) : Document :=
  map (rewriteBlock o doc) doc.

(** The headings linked by an entry and by the entries nested in it, in
    the order of the markup. *)
Fixpoint linked (e : Entry) : list (nat * jsstring) :=
  match e with
  | entry l title children => (l, title) :: flat_map linked children
  end.

(** The linked entries of a list, in order. *)
Definition entries (es : list Entry) : list (nat * jsstring) :=
  flat_map linked es.

End Toc.

(* ================================================================= *)
(** ** Eleventy's registration interface *)

(** [eleventyConfig.amendLibrary(name, callback)]: the callback is queued
    for the engine [name]. *)
Definition amendLibrary (name : jsstring) (callback : Amendment) : M unit :=
  cfg <- get ;;
  put {| libraryAmendments := libraryAmendments cfg ++ [(name, callback)];
         listeners := listeners cfg |}.

(** [eleventyConfig.on(event, listener)]. *)
Definition on (event : jsstring) (listener : Handler) : M unit :=
  cfg <- get ;;
  put {| libraryAmendments := libraryAmendments cfg;
         listeners := listeners cfg ++ [(event, listener)] |}.

(* ================================================================= *)
(** ** The three configuration modules *)

Module FootnoteConfig.

(** [mdLib => mdLib.use(markdownItFootnote)].  The module binds
    [markdownItFootnote] to the package it requires when it is loaded; the
    package is taken as installed. *)
Definition amendment (mdLib : MdLib) : MdLib :=
  md_use markdownItFootnote NoOptions mdLib.

Definition module_exports : M unit :=
  amendLibrary (lit "md") UseFootnote.

End FootnoteConfig.

Module ShikiConfig.

Definition theme : jsstring := lit "rose-pine-dawn".

(** The top-level [const langs = [...]], evaluated when the module is
    loaded: the file is read and parsed between the two literals. *)
Definition langs (env : Env) : M (list LangInput) :=
  text <- call (ReadFile (lit "./typespec.json"))
               (readFileSync env (lit "./typespec.json")) ;;
  grammar <- lift (JSON_parse env text) ;;
  ret [BundledLang (lit "typescript"); GrammarData grammar;
       BundledLang (lit "yaml")].

(** [(code, lang) => highlighter.codeToHtml(code.trim(), { lang, theme })] *)
Definition highlight (highlighter : Highlighter) (code lang : jsstring)
  : M jsstring :=
  let opts := {| code_lang := lang; code_theme := theme |} in
  call (CodeToHtml (trim code) opts) (codeToHtml highlighter (trim code) opts).

(** [(mdLib) => mdLib.set({ highlight: ... })] *)
Definition amendment (highlighter : Highlighter) (mdLib : MdLib) : MdLib :=
  md_set {| patch_highlight := Some (ShikiHighlight highlighter) |} mdLib.

(** [() => {}] *)
Definition noop (mdLib : MdLib) : MdLib := mdLib.

(** The listener of [eleventy.before]. *)
Definition before (env : Env) (langs : list LangInput) : M unit :=
  shiki <- call (Import (lit "shiki")) (import env (lit "shiki")) ;;
  let opts := {| opt_themes := [theme]; opt_langs := langs |} in
  highlighter <- call (GetHighlighter opts) (getHighlighter shiki opts) ;;
  amendLibrary (lit "md") (SetHighlight highlighter).

Definition module_exports (langs : list LangInput) : M unit :=
  amendLibrary (lit "md") Empty ;;;
  on (lit "eleventy.before") (ShikiSetup langs).

End ShikiConfig.

Module TocConfig.

Definition tocOptions : TocOptions :=
  {| listType := lit "ol"; includeLevel := [1; 2; 3; 4] |}.

(** [mdLib => { mdLib.use(footnote); mdLib.use(toc, { ... }) }]; the two
    packages the callback requires are taken as installed. *)
Definition amendment (mdLib : MdLib) : MdLib :=
  let mdLib1 := md_use markdownItFootnote NoOptions mdLib in
  md_use markdownItTableOfContents (TocOpts tocOptions) mdLib1.

Definition module_exports : M unit :=
  amendLibrary (lit "md") UseFootnoteToc.

End TocConfig.

(** Calling a registered closure runs its body. *)
Definition callHighlight (f : HighlightFn) : jsstring -> jsstring -> M jsstring :=
  match f with
  | ShikiHighlight highlighter => ShikiConfig.highlight highlighter
  end.

Definition amend (a : Amendment) : MdLib -> MdLib :=
  match a with
  | UseFootnote => FootnoteConfig.amendment
  | Empty => ShikiConfig.noop
  | SetHighlight highlighter => ShikiConfig.amendment highlighter
  | UseFootnoteToc => TocConfig.amendment
  end.

Definition runHandler (env : Env) (h : Handler) : M unit :=
  match h with
  | ShikiSetup langs => ShikiConfig.before env langs
  end.

(* ================================================================= *)
(** ** markdown-it's renderer *)

Fixpoint takeWord (s : jsstring) : jsstring :=
  match s with
  | c :: s' => if isWhiteSpace c then [] else c :: takeWord s'
  | [] => []
  end.

(** [info.split(/(\s+)/g)[0]] of the trimmed info string. *)
Definition langName (info : jsstring) : jsstring := takeWord (trim info).

Definition langPrefix : jsstring := lit "language-".

(** The markup around the content of a fenced block: a result that starts
    with <pre is emitted as it is, any other is wrapped, with the language
    as a class when the block has an info string. *)
Definition fenceWrap (info highlighted : jsstring) : jsstring :=
  if startsWith (lit "<pre") highlighted
  then highlighted ++ [10%N]
  else
    match trim info with
    | [] => lit "<pre><code>" ++ highlighted ++ lit "</code></pre>" ++ [10%N]
    | _ :: _ =>
        lit "<pre><code class=" ++ dq
        ++ escapeHtml (langPrefix ++ langName info)
        ++ dq ++ lit ">" ++ highlighted ++ lit "</code></pre>" ++ [10%N]
    end.

(** The default rule for a fenced block.  The [highlight] option is called
    when it is set; an empty result falls back to the escaped content.
    Nothing is caught. *)
Definition fence (md : MdLib) (info content : jsstring) : M jsstring :=
  highlighted <-
    match md_highlight md with
    | Some f =>
        h <- callHighlight f content (langName info) ;;
        ret (match h with [] => escapeHtml content | _ :: _ => h end)
    | None => ret (escapeHtml content)
    end ;;
  ret (fenceWrap info highlighted).

Definition renderInline (i : Inline) : jsstring :=
  match i with
  | Text s => escapeHtml s
  | FootnoteRef l => escapeHtml (lit "[^" ++ l ++ lit "]")
  | InlineHtml h => h
  end.

Definition paragraph (c : list Inline) : jsstring :=
  lit "<p>" ++ flat_map renderInline c ++ lit "</p>" ++ [10%N].

Definition heading (l : nat) (t : jsstring) : jsstring :=
  lit "<h" ++ decimal l ++ lit ">" ++ escapeHtml t
  ++ lit "</h" ++ decimal l ++ lit ">" ++ [10%N].

(** Without the plugins their syntax is ordinary paragraph text.  This is
    so for a definition whose body is running text; a body that reads as a
    link destination would make the line a link reference definition. *)
Definition tocText : jsstring := lit "<p>[[toc]]</p>" ++ [10%N].

Definition footnoteText (l body : jsstring) : jsstring :=
  lit "<p>" ++ escapeHtml (lit "[^" ++ l ++ lit "]: " ++ body)
  ++ lit "</p>" ++ [10%N].

(** Only the fence rule consults an option; the other rules cannot throw. *)
Definition renderBlock (md : MdLib) (b : Block) : M jsstring :=
  match b with
  | Fence info content => fence md info content
  | Paragraph c => ret (paragraph c)
  | Heading l t => ret (heading l t)
  | TocMarker => ret tocText
  | FootnoteDef l body => ret (footnoteText l body)
  | HtmlBlock h => ret h
  end.

Definition renderer (md : MdLib) (doc : Document) : M jsstring :=
  parts <- mapM (renderBlock md) doc ;;
  ret (List.concat parts).

(** Modelled from the spec: how a plugin applied by [use] takes part in a
    conversion, "applying configured extensions in a fixed order", each "an
    opaque transformation step". *)
Definition applyPlugin (doc : Document) (p : Plugin * PluginOptions) : Document :=
  match fst p with
  | markdownItFootnote => Footnote.pass doc
  | markdownItTableOfContents => Toc.pass (Toc.options (snd p)) doc
  end.

(** [mdLib.render(src)] *)
Definition render (md : MdLib) (doc : Document) : M jsstring :=
  renderer md (fold_left applyPlugin (md_plugins md) doc).

(** The conversion of an instance nothing was registered on. *)
Definition baseRender (doc : Document) : M jsstring := render markdownIt doc.

(* ================================================================= *)
(** ** Eleventy's build *)

Definition selected {A} (name : jsstring) (l : list (jsstring * A)) : list A :=
  map snd (filter (fun p => jseqb (fst p) name) l).

(** [emit(event)]: the listeners registered for [event] run to completion,
    in order of registration; a rejection stops the build. *)
Fixpoint runAll (env : Env) (hs : list Handler) : M unit :=
  match hs with
  | [] => ret tt
  | h :: hs' => runHandler env h ;;; runAll env hs'
  end.

Definition emit (env : Env) (event : jsstring) : M unit :=
  cfg <- get ;;
  runAll env (selected event (listeners cfg)).

(** The markdown engine: a fresh instance with the queued callbacks applied
    in order. *)
Definition engineOf (cfg : UserConfig) : MdLib :=
  fold_left (fun md a => amend a md)
            (selected (lit "md") (libraryAmendments cfg)) markdownIt.

Definition engine : M MdLib := cfg <- get ;; ret (engineOf cfg).

(** Rendering with the engine of the current configuration. *)
Definition renderDoc (doc : Document) : M jsstring :=
  md <- engine ;; render md doc.

(** The host requires the highlighting module, which evaluates its top
    level, and calls its export. *)
Definition configure (env : Env) : M unit :=
  langs <- ShikiConfig.langs env ;;
  ShikiConfig.module_exports langs.

(** The initialization phase of the highlighting configuration: the module
    is loaded and called, then the host emits [eleventy.before]. *)
Definition initialize (env : Env) : M unit :=
  configure env ;;;
  emit env (lit "eleventy.before").

(** A build: initialization, then every document is rendered. *)
Definition build (env : Env) (docs : list Document) : M (list jsstring) :=
  initialize env ;;;
  mapM renderDoc docs.

(* ================================================================= *)
(** ** A sample environment *)

(** An environment to run the configuration in: a file system holding a
    small grammar file, and a highlighter that, as shiki does, serves the
    themes and languages it was constructed with and throws for any other. *)
Module Sample.

Definition grammarText : jsstring :=
  lit "{" ++ dq ++ lit "name" ++ dq ++ lit ":" ++ dq ++ lit "typespec" ++ dq
  ++ lit "}".

Definition grammar : Json :=
  JObject [(lit "name", JString (lit "typespec"))].

Definition bundled : list jsstring :=
  [lit "typescript"; lit "yaml"; lit "javascript"; lit "json"].

Fixpoint member (k : jsstring) (ms : list (jsstring * Json)) : option Json :=
  match ms with
  | [] => None
  | (k', v) :: ms' => if jseqb k k' then Some v else member k ms'
  end.

Definition langNames (l : LangInput) : option jsstring :=
  match l with
  | BundledLang n => if existsb (jseqb n) bundled then Some n else None
  | GrammarData (JObject ms) =>
      match member (lit "name") ms with
      | Some (JString n) => Some n
      | _ => None
      end
  | GrammarData _ => None
  end.

(** Names that stand for plain text and need no grammar. *)
Definition plainLangs : list jsstring :=
  [[]; lit "plaintext"; lit "txt"; lit "text"].

Definition loaded (opts : HighlighterOptions) : list jsstring :=
  plainLangs
  ++ flat_map (fun l => match langNames l with Some n => [n] | None => [] end)
              (opt_langs opts).

Definition highlighter (opts : HighlighterOptions) : Highlighter :=
  {| codeToHtml := fun code o =>
       if negb (existsb (jseqb (code_theme o)) (opt_themes opts))
       then Throw (ThemeError (code_theme o))
       else if existsb (jseqb (code_lang o)) (loaded opts)
       then Ok (lit "<pre class=" ++ dq ++ lit "shiki " ++ code_theme o ++ dq
                ++ lit "><code><span class=" ++ dq ++ lit "line" ++ dq
                ++ lit ">" ++ escapeHtml code ++ lit "</span></code></pre>")
       else Throw (LanguageError (code_lang o)) |}.

Definition shiki : Shiki :=
  {| getHighlighter := fun opts =>
       if forallb (fun l => match langNames l with
                            | Some _ => true
                            | None => false
                            end) (opt_langs opts)
       then Ok (highlighter opts)
       else Throw GrammarError |}.

Definition env : Env :=
  {| readFileSync := fun path =>
       if jseqb path (lit "./typespec.json") then Ok grammarText
       else Throw (IOError path);
     JSON_parse := fun text =>
       if jseqb text grammarText then Ok grammar
       else Throw (SyntaxError text);
     import := fun spec =>
       if jseqb spec (lit "shiki") then Ok shiki
       else Throw (ModuleNotFound spec) |}.

(** The same with no grammar file on disk. *)
Definition envNoFile : Env :=
  {| readFileSync := fun path => Throw (IOError path);
     JSON_parse := JSON_parse env;
     import := import env |}.

(** The configuration once the highlighting module has been loaded and its
    export called, before the host emits [eleventy.before]. *)
Definition configured : UserConfig := store (configure env emptyConfig).

(** The configuration once initialization is complete. *)
Definition ready : UserConfig := store (initialize env emptyConfig).

End Sample.

(* ================================================================= *)
(** ** Vocabulary of the properties *)

(** A computation that leaves the configuration as it found it. *)
Definition readOnly {A} (m : M A) : Prop :=
  forall s, store (m s) = s.

(** A computation whose outside calls are all calls to the highlighter. *)
Definition loadFree {A} (m : M A) : Prop :=
  forall s, forallb (fun ev => negb (isLoad ev)) (trace (m s)) = true.

Definition grammarPath : jsstring := lit "./typespec.json".

(** The value of [langs] when the grammar file parses to [grammar]. *)
Definition langsWith (grammar : Json) : list LangInput :=
  [BundledLang (lit "typescript"); GrammarData grammar; BundledLang (lit "yaml")].

(** The argument of [getHighlighter]. *)
Definition shikiOptions (grammar : Json) : HighlighterOptions :=
  {| opt_themes := [ShikiConfig.theme]; opt_langs := langsWith grammar |}.

(** The configuration after the export has run. *)
Definition configuredWith (grammar : Json) : UserConfig :=
  {| libraryAmendments := [(lit "md", Empty)];
     listeners := [(lit "eleventy.before", ShikiSetup (langsWith grammar))] |}.

(** The configuration after the listener has run. *)
Definition readyWith (grammar : Json) (highlighter : Highlighter) : UserConfig :=
  {| libraryAmendments := [(lit "md", Empty); (lit "md", SetHighlight highlighter)];
     listeners := [(lit "eleventy.before", ShikiSetup (langsWith grammar))] |}.

(** The ways resource loading can fail, and with what. *)
Inductive loadFailure (env : Env) (e : Error) : Prop :=
| FileUnreadable :
    readFileSync env grammarPath = Throw e -> loadFailure env e
| FileUnparsable text :
    readFileSync env grammarPath = Ok text ->
    JSON_parse env text = Throw e -> loadFailure env e
| PackageMissing text grammar :
    readFileSync env grammarPath = Ok text ->
    JSON_parse env text = Ok grammar ->
    import env (lit "shiki") = Throw e -> loadFailure env e
| HighlighterRejected text grammar shiki :
    readFileSync env grammarPath = Ok text ->
    JSON_parse env text = Ok grammar ->
    import env (lit "shiki") = Ok shiki ->
    getHighlighter shiki (shikiOptions grammar) = Throw e -> loadFailure env e.

(** Resource loading succeeds, with this grammar and this highlighter. *)
Definition loadSuccess (env : Env) (grammar : Json) (h : Highlighter) : Prop :=
  exists text shiki,
    readFileSync env grammarPath = Ok text
    /\ JSON_parse env text = Ok grammar
    /\ import env (lit "shiki") = Ok shiki
    /\ getHighlighter shiki (shikiOptions grammar) = Ok h.

Definition loadTrace (grammar : Json) : list Event :=
  [ReadFile grammarPath; Import (lit "shiki");
   GetHighlighter (shikiOptions grammar)].

(** A document with a paragraph and a typescript block. *)
Definition sampleDoc : Document :=
  [Paragraph [Text (lit "Hello")];
   Fence (lit "typescript") (lit "let x = 1;" ++ [10%N])].

(** What the rules emit for a block when no [highlight] option is set. *)
Definition plainBlock (b : Block) : jsstring :=
  match b with
  | Fence info content => fenceWrap info (escapeHtml content)
  | Paragraph c => paragraph c
  | Heading l t => heading l t
  | TocMarker => tocText
  | FootnoteDef l body => footnoteText l body
  | HtmlBlock h => h
  end.

Definition plainHtml (doc : Document) : jsstring :=
  List.concat (map plainBlock doc).

(** A document with a python block between two paragraphs. *)
Definition pythonDoc : Document :=
  [Paragraph [Text (lit "Hello")];
   Fence (lit "python") (lit "print(1)" ++ [10%N]);
   Paragraph [Text (lit "Bye")]].

Definition plainInline (i : Inline) : bool :=
  match i with
  | FootnoteRef _ => false
  | _ => true
  end.

(** A block with no footnote syntax, that is no table-of-contents
    placeholder and no fenced code block. *)
Definition extensionFree (b : Block) : bool :=
  match b with
  | Paragraph c => forallb plainInline c
  | Heading _ _ | HtmlBlock _ => true
  | Fence _ _ | TocMarker | FootnoteDef _ _ => false
  end.

(** A document of a heading, a paragraph and a raw HTML block. *)
Definition proseDoc : Document :=
  [Heading 2 (lit "Example"); Paragraph [Text (lit "TypeSpec test")];
   HtmlBlock (lit "<figure></figure>")].

(** The engine of the footnote and table-of-contents configuration. *)
Definition tocEngine : MdLib :=
  {| md_highlight := None;
     md_plugins := [(markdownItFootnote, NoOptions);
                    (markdownItTableOfContents, TocOpts TocConfig.tocOptions)] |}.

(** A document with the placeholder, headings of levels 1, 2, 3, 5 and 2,
    a footnote and its definition. *)
Definition tocDoc : Document :=
  [TocMarker;
   Heading 1 (lit "JSON numbers");
   Paragraph [Text (lit "See"); FootnoteRef (lit "1")];
   Heading 2 (lit "Authoritative sources");
   Heading 3 (lit "ECMA-404");
   Heading 5 (lit "Aside");
   Heading 2 (lit "Summary");
   FootnoteDef (lit "1") (lit "world")].

(** The call to the highlighter a fenced block gives rise to: the trimmed
    content, the first word of the info string, the configured theme. *)
Definition fenceCall (info content : jsstring) : jsstring * CodeOptions :=
  (trim content,
   {| code_lang := langName info; code_theme := ShikiConfig.theme |}).

(** The calls of the fenced blocks of a document, in document order. *)
Definition fenceCalls (doc : Document) : list (jsstring * CodeOptions) :=
  flat_map (fun b => match b with
                     | Fence info content => [fenceCall info content]
                     | _ => []
                     end) doc.

(** The highlighter returns for a call, rather than throws. *)
Definition accepts (h : Highlighter) (c : jsstring * CodeOptions) : bool :=
  isOk (codeToHtml h (fst c) (snd c)).

(** The calls up to the first one the highlighter throws for, included. *)
Fixpoint untilThrow (h : Highlighter) (cs : list (jsstring * CodeOptions))
  : list (jsstring * CodeOptions) :=
  match cs with
  | [] => []
  | c :: cs' => c :: (if accepts h c then untilThrow h cs' else [])
  end.

Definition callEvent (c : jsstring * CodeOptions) : Event :=
  CodeToHtml (fst c) (snd c).

(** The plugins a registered callback applies, in the order of its [use]
    calls. *)
Definition pluginsOf (a : Amendment) : list (Plugin * PluginOptions) :=
  match a with
  | UseFootnote => [(markdownItFootnote, NoOptions)]
  | UseFootnoteToc =>
      [(markdownItFootnote, NoOptions);
       (markdownItTableOfContents, TocOpts TocConfig.tocOptions)]
  | Empty | SetHighlight _ => []
  end.

(** The [highlight] option after the callbacks [l], starting from [cur]:
    the one set by the last callback that sets it. *)
Fixpoint lastHighlight (cur : option HighlightFn) (l : list Amendment)
  : option HighlightFn :=
  match l with
  | [] => cur
  | SetHighlight h :: l' => lastHighlight (Some (ShikiHighlight h)) l'
  | _ :: l' => lastHighlight cur l'
  end.

(** What a conversion emits when the engine has plugins [ps] and no
    [highlight] option. *)
Definition pluginHtml (ps : list (Plugin * PluginOptions)) (doc : Document)
  : jsstring :=
  plainHtml (fold_left applyPlugin ps doc).

(** A call to the highlighter that asks for the configured theme. *)
Definition usesTheme (ev : Event) : Prop :=
  match ev with
  | CodeToHtml _ o => code_theme o = ShikiConfig.theme
  | _ => False
  end.

(** What a block contributes to the output once the highlight option is
    set to the callback over [h], when the highlighter returns for it. *)
Definition highlightedBlock (h : Highlighter) (b : Block) : jsstring :=
  match b with
  | Fence info content =>
      match codeToHtml h (fst (fenceCall info content))
                         (snd (fenceCall info content)) with
      | Ok [] => fenceWrap info (escapeHtml content)
      | Ok (c :: html) => fenceWrap info (c :: html)
      | Throw _ => []
      end
  | _ => plainBlock b
  end.

(* ================================================================= *)
(** * Properties *)

(** ** Trimming *)

Section Trim.

Lemma trimStart_split (s : jsstring) :
  exists pre, s = pre ++ trimStart s /\ forallb isWhiteSpace pre = true.
Proof.
  induction s as [|c s IH]; simpl.
  - exists []. split; reflexivity.
  - destruct (isWhiteSpace c) eqn:Hc.
    + destruct IH as [pre [Hs Hpre]].
      exists (c :: pre). simpl. rewrite Hc, Hpre. split; [congruence | reflexivity].
    + exists []. split; reflexivity.
Qed.

Lemma trimStart_head (s : jsstring) (c : N) :
  hd_error (trimStart s) = Some c -> isWhiteSpace c = false.
Proof.
  induction s as [|a s IH]; simpl; [discriminate|].
  destruct (isWhiteSpace a) eqn:Ha; [exact IH|].
  simpl. intros H. injection H as <-. exact Ha.
Qed.

Lemma forallb_rev {A} (f : A -> bool) (l : list A) :
  forallb f (rev l) = forallb f l.
Proof.
  induction l as [|a l IH]; simpl; [reflexivity|].
  rewrite forallb_app, IH. simpl. rewrite andb_true_r. apply andb_comm.
Qed.

Lemma trimEnd_split (s : jsstring) :
  exists post, s = trimEnd s ++ post /\ forallb isWhiteSpace post = true.
Proof.
  unfold trimEnd.
  destruct (trimStart_split (rev s)) as [pre [Hs Hpre]].
  exists (rev pre). split.
  - rewrite <- rev_app_distr, <- Hs. symmetry. apply rev_involutive.
  - rewrite forallb_rev. exact Hpre.
Qed.

Lemma trimEnd_last (s : jsstring) (c : N) :
  hd_error (rev (trimEnd s)) = Some c -> isWhiteSpace c = false.
Proof.
  unfold trimEnd. rewrite rev_involutive. apply trimStart_head.
Qed.

Lemma trim_split (s : jsstring) :
  exists pre post,
    s = pre ++ trim s ++ post
    /\ forallb isWhiteSpace pre = true /\ forallb isWhiteSpace post = true.
Proof.
  unfold trim.
  destruct (trimStart_split s) as [pre [Hs Hpre]].
  destruct (trimEnd_split (trimStart s)) as [post [Ht Hpost]].
  exists pre, post. repeat split; try assumption.
  rewrite <- Ht. exact Hs.
Qed.

Lemma trim_head (s : jsstring) (c : N) :
  hd_error (trim s) = Some c -> isWhiteSpace c = false.
Proof.
  unfold trim. intros H.
  destruct (trimEnd_split (trimStart s)) as [post [Ht _]].
  apply (trimStart_head s). rewrite Ht.
  destruct (trimEnd (trimStart s)); [discriminate | exact H].
Qed.

Lemma trim_last (s : jsstring) (c : N) :
  hd_error (rev (trim s)) = Some c -> isWhiteSpace c = false.
Proof. unfold trim. apply trimEnd_last. Qed.

End Trim.

(** ** The effect monad *)

Lemma bind_value_throw {A B} (m : M A) (f : A -> M B) (s : UserConfig) (e : Error) :
  value (m s) = Throw e -> value (bind m f s) = Throw e.
Proof. unfold bind. intros H. rewrite H. reflexivity. Qed.

Lemma bind_trace_throw {A B} (m : M A) (f : A -> M B) (s : UserConfig) (e : Error) :
  value (m s) = Throw e -> trace (bind m f s) = trace (m s).
Proof. unfold bind. intros H. rewrite H. reflexivity. Qed.

Lemma bind_ok {A B} (m : M A) (f : A -> M B) (s : UserConfig) (a : A) :
  value (m s) = Ok a ->
  bind m f s = {| trace := trace (m s) ++ trace (f a (store (m s)));
                  store := store (f a (store (m s)));
                  value := value (f a (store (m s))) |}.
Proof. unfold bind. intros H. rewrite H. reflexivity. Qed.

Lemma readOnly_bind {A B} (m : M A) (f : A -> M B) :
  readOnly m -> (forall a, readOnly (f a)) -> readOnly (bind m f).
Proof.
  intros Hm Hf s. unfold bind.
  destruct (value (m s)) eqn:E; simpl.
  - rewrite Hf. apply Hm.
  - apply Hm.
Qed.

Lemma loadFree_bind {A B} (m : M A) (f : A -> M B) :
  loadFree m -> (forall a, loadFree (f a)) -> loadFree (bind m f).
Proof.
  intros Hm Hf s. unfold bind.
  destruct (value (m s)) eqn:E; simpl.
  - rewrite forallb_app, Hm, Hf. reflexivity.
  - apply Hm.
Qed.

Lemma readOnly_ret {A} (a : A) : readOnly (ret a).
Proof. intros s. reflexivity. Qed.

Lemma loadFree_ret {A} (a : A) : loadFree (ret a).
Proof. intros s. reflexivity. Qed.

Lemma readOnly_mapM {A B} (f : A -> M B) (l : list A) :
  (forall a, readOnly (f a)) -> readOnly (mapM f l).
Proof.
  intros Hf. induction l as [|a l IH]; simpl.
  - apply readOnly_ret.
  - apply readOnly_bind; [apply Hf|]. intros b.
    apply readOnly_bind; [exact IH|]. intros bs. apply readOnly_ret.
Qed.

Lemma loadFree_mapM {A B} (f : A -> M B) (l : list A) :
  (forall a, loadFree (f a)) -> loadFree (mapM f l).
Proof.
  intros Hf. induction l as [|a l IH]; simpl.
  - apply loadFree_ret.
  - apply loadFree_bind; [apply Hf|]. intros b.
    apply loadFree_bind; [exact IH|]. intros bs. apply loadFree_ret.
Qed.

(** ** Rendering: frame and trace *)

Create HintDb frame.

#[local] Hint Resolve readOnly_ret loadFree_ret : frame.

Ltac frame_bind :=
  first [ apply readOnly_bind | apply loadFree_bind ];
  intros; auto with frame.

Lemma highlight_readOnly h code lang : readOnly (ShikiConfig.highlight h code lang).
Proof. intros s. reflexivity. Qed.

Lemma highlight_loadFree h code lang : loadFree (ShikiConfig.highlight h code lang).
Proof. intros s. reflexivity. Qed.

#[local] Hint Resolve highlight_readOnly highlight_loadFree : frame.

Lemma fence_readOnly md info content : readOnly (fence md info content).
Proof.
  unfold fence. apply readOnly_bind.
  - destruct (md_highlight md) as [[h]|]; [|auto with frame].
    simpl. frame_bind.
  - auto with frame.
Qed.

Lemma fence_loadFree md info content : loadFree (fence md info content).
Proof.
  unfold fence. apply loadFree_bind.
  - destruct (md_highlight md) as [[h]|]; [|auto with frame].
    simpl. frame_bind.
  - auto with frame.
Qed.

#[local] Hint Resolve fence_readOnly fence_loadFree : frame.

Lemma renderBlock_readOnly md b : readOnly (renderBlock md b).
Proof. destruct b; simpl; auto with frame. Qed.

Lemma renderBlock_loadFree md b : loadFree (renderBlock md b).
Proof. destruct b; simpl; auto with frame. Qed.

#[local] Hint Resolve renderBlock_readOnly renderBlock_loadFree : frame.

Lemma render_readOnly md doc : readOnly (render md doc).
Proof.
  unfold render, renderer. apply readOnly_bind; [|auto with frame].
  apply readOnly_mapM. auto with frame.
Qed.

Lemma render_loadFree md doc : loadFree (render md doc).
Proof.
  unfold render, renderer. apply loadFree_bind; [|auto with frame].
  apply loadFree_mapM. auto with frame.
Qed.

Lemma renderDoc_unfold doc cfg : renderDoc doc cfg = render (engineOf cfg) doc cfg.
Proof.
  unfold renderDoc, engine, bind, get, ret. simpl.
  destruct (render (engineOf cfg) doc cfg) as [t s v]. simpl.
  destruct v; reflexivity.
Qed.

Lemma renderDoc_readOnly doc : readOnly (renderDoc doc).
Proof. intros s. rewrite renderDoc_unfold. apply render_readOnly. Qed.

Lemma renderDoc_loadFree doc : loadFree (renderDoc doc).
Proof. intros s. rewrite renderDoc_unfold. apply render_loadFree. Qed.

(** ** Initialization of the highlighting configuration *)

Lemma jseqb_eq (a b : jsstring) : jseqb a b = true <-> a = b.
Proof.
  revert b. induction a as [|x a IH]; intros [|y b]; simpl;
    try (split; [discriminate | discriminate]); [tauto|].
  rewrite andb_true_iff, N.eqb_eq, IH. split.
  - intros [-> ->]. reflexivity.
  - intros H. injection H as -> ->. split; reflexivity.
Qed.

Lemma initialize_cases (env : Env) :
  initialize env emptyConfig =
  match readFileSync env grammarPath with
  | Throw e =>
      {| trace := [ReadFile grammarPath]; store := emptyConfig; value := Throw e |}
  | Ok text =>
      match JSON_parse env text with
      | Throw e =>
          {| trace := [ReadFile grammarPath]; store := emptyConfig;
             value := Throw e |}
      | Ok grammar =>
          match import env (lit "shiki") with
          | Throw e =>
              {| trace := [ReadFile grammarPath; Import (lit "shiki")];
                 store := configuredWith grammar; value := Throw e |}
          | Ok shiki =>
              match getHighlighter shiki (shikiOptions grammar) with
              | Throw e =>
                  {| trace := loadTrace grammar;
                     store := configuredWith grammar; value := Throw e |}
              | Ok h =>
                  {| trace := loadTrace grammar;
                     store := readyWith grammar h; value := Ok tt |}
              end
          end
      end
  end.
Proof.
  unfold initialize, configure, ShikiConfig.langs, bind, call, lift. simpl.
  fold grammarPath.
  destruct (readFileSync env grammarPath) as [text|e]; simpl; [|reflexivity].
  destruct (JSON_parse env text) as [grammar|e]; simpl; [|reflexivity].
  unfold ShikiConfig.before, bind, call. simpl.
  destruct (import env (lit "shiki")) as [shiki|e]; simpl; [|reflexivity].
  fold (langsWith grammar). fold (shikiOptions grammar).
  destruct (getHighlighter shiki (shikiOptions grammar)) as [h|e]; simpl;
    reflexivity.
Qed.

Lemma initialize_success env grammar h :
  loadSuccess env grammar h ->
  initialize env emptyConfig =
  {| trace := loadTrace grammar; store := readyWith grammar h; value := Ok tt |}.
Proof.
  intros (text & shiki & H1 & H2 & H3 & H4).
  rewrite initialize_cases, H1, H2, H3, H4. reflexivity.
Qed.

Lemma initialize_failure env e :
  loadFailure env e ->
  value (initialize env emptyConfig) = Throw e
  /\ forallb isLoad (trace (initialize env emptyConfig)) = true.
Proof.
  intros H. rewrite initialize_cases.
  destruct H as [H1 | text H1 H2 | text g H1 H2 H3 | text g sh H1 H2 H3 H4].
  - rewrite H1. split; reflexivity.
  - rewrite H1, H2. split; reflexivity.
  - rewrite H1, H2, H3. split; reflexivity.
  - rewrite H1, H2, H3, H4. split; reflexivity.
Qed.

Lemma engineOf_ready grammar h :
  engineOf (readyWith grammar h)
  = {| md_highlight := Some (ShikiHighlight h); md_plugins := [] |}.
Proof. reflexivity. Qed.

Lemma engineOf_configured grammar : engineOf (configuredWith grammar) = markdownIt.
Proof. reflexivity. Qed.

Lemma configure_cases (env : Env) :
  configure env emptyConfig =
  match readFileSync env grammarPath with
  | Throw e =>
      {| trace := [ReadFile grammarPath]; store := emptyConfig; value := Throw e |}
  | Ok text =>
      match JSON_parse env text with
      | Throw e =>
          {| trace := [ReadFile grammarPath]; store := emptyConfig;
             value := Throw e |}
      | Ok grammar =>
          {| trace := [ReadFile grammarPath]; store := configuredWith grammar;
             value := Ok tt |}
      end
  end.
Proof.
  unfold configure, ShikiConfig.langs, bind, call, lift. simpl.
  fold grammarPath.
  destruct (readFileSync env grammarPath) as [text|e]; simpl; [|reflexivity].
  destruct (JSON_parse env text) as [grammar|e]; reflexivity.
Qed.

Lemma build_after_initialize env docs :
  build env docs emptyConfig
  = bind (initialize env) (fun _ => mapM renderDoc docs) emptyConfig.
Proof. reflexivity. Qed.

(** ** The claims *)

(** C10.  The highlight callback hands the highlighter the trimmed code:
    the one outside call it makes is [codeToHtml] on [trim code] with the
    language it was given and the configured theme, and its result is that
    call's result.  The trimmed code is the code without a leading and a
    trailing run of white space, it neither starts nor ends with white
    space, so a block ending in a newline is never highlighted verbatim.
    The fence rule passes the block's content to the callback, so the same
    holds for every fenced block rendered. *)
Theorem highlight_trims_code (highlighter : Highlighter) (code lang : jsstring)
  (cfg : UserConfig) :
  let opts := {| code_lang := lang; code_theme := ShikiConfig.theme |} in
  let o := ShikiConfig.highlight highlighter code lang cfg in
  value o = codeToHtml highlighter (trim code) opts
  /\ trace o = [CodeToHtml (trim code) opts]
  /\ (exists pre post,
        code = pre ++ trim code ++ post
        /\ forallb isWhiteSpace pre = true
        /\ forallb isWhiteSpace post = true)
  /\ (forall c, hd_error (trim code) = Some c -> isWhiteSpace c = false)
  /\ (forall c, hd_error (rev (trim code)) = Some c -> isWhiteSpace c = false)
  /\ trim (code ++ [10%N]) <> code ++ [10%N]
  /\ (forall plugins info,
        trace (fence {| md_highlight := Some (ShikiHighlight highlighter);
                        md_plugins := plugins |} info code cfg)
        = [CodeToHtml (trim code)
             {| code_lang := langName info; code_theme := ShikiConfig.theme |}]).
Proof.
  intros opts o. repeat split.
  - apply trim_split.
  - apply trim_head.
  - apply trim_last.
  - intros H.
    assert (Hl : hd_error (rev (trim (code ++ [10%N]))) = Some 10%N).
    { rewrite H, rev_app_distr. reflexivity. }
    apply trim_last in Hl. discriminate.
  - intros plugins info. unfold fence, bind. simpl.
    destruct (codeToHtml highlighter (trim code) _) as [html|e]; reflexivity.
Qed.

(** C10 at a block [let x = 1;] followed by a newline, tagged typescript. *)
Lemma highlight_trims_code_witness :
  trace (ShikiConfig.highlight (Sample.highlighter (shikiOptions Sample.grammar))
           (lit "let x = 1;" ++ [10%N]) (lit "typescript") Sample.ready)
  = [CodeToHtml (lit "let x = 1;")
       {| code_lang := lit "typescript"; code_theme := ShikiConfig.theme |}].
Proof.
  exact (proj1 (proj2 (highlight_trims_code
    (Sample.highlighter (shikiOptions Sample.grammar))
    (lit "let x = 1;" ++ [10%N]) (lit "typescript") Sample.ready))).
Defined.

Lemma sample_loads :
  loadSuccess Sample.env Sample.grammar
              (Sample.highlighter (shikiOptions Sample.grammar)).
Proof.
  exists Sample.grammarText, Sample.shiki. repeat split; reflexivity.
Defined.

Lemma sample_file_missing :
  loadFailure Sample.envNoFile (IOError grammarPath).
Proof. apply FileUnreadable. reflexivity. Defined.

Lemma filter_load_calls (loads calls : list Event) :
  forallb (fun ev => negb (isLoad ev)) calls = true ->
  filter isLoad (loads ++ calls) = filter isLoad loads.
Proof.
  intros H. rewrite filter_app.
  assert (E : filter isLoad calls = []).
  { induction calls as [|ev l IH]; [reflexivity|].
    simpl in H. apply andb_true_iff in H as [Hev Hl].
    simpl. destruct (isLoad ev); [discriminate|]. apply IH, Hl. }
  rewrite E. apply app_nil_r.
Qed.

(** C9.  When loading succeeds, a build leaves the configuration exactly as
    initialization left it, and its outside calls are the three loading
    calls of initialization (the grammar file read, the import, the
    highlighter construction, once each) followed by calls to the
    highlighter only.  Any render, in any configuration, returns the
    configuration unchanged and makes no loading call. *)
Theorem render_has_no_side_effects (env : Env) (grammar : Json)
  (h : Highlighter) (docs : list Document) :
  loadSuccess env grammar h ->
  let b := build env docs emptyConfig in
  store b = store (initialize env emptyConfig)
  /\ store b = readyWith grammar h
  /\ (exists rendering,
        trace b = loadTrace grammar ++ rendering
        /\ forallb (fun ev => negb (isLoad ev)) rendering = true)
  /\ filter isLoad (trace b) = loadTrace grammar
  /\ (forall doc cfg,
        store (renderDoc doc cfg) = cfg
        /\ forallb (fun ev => negb (isLoad ev)) (trace (renderDoc doc cfg)) = true).
Proof.
  intros Hload b.
  assert (Hb : b = {| trace := loadTrace grammar
                               ++ trace (mapM renderDoc docs (readyWith grammar h));
                      store := store (mapM renderDoc docs (readyWith grammar h));
                      value := value (mapM renderDoc docs (readyWith grammar h)) |}).
  { subst b. rewrite build_after_initialize. unfold bind.
    rewrite (initialize_success Hload). reflexivity. }
  assert (Hro : store (mapM renderDoc docs (readyWith grammar h))
                = readyWith grammar h).
  { apply readOnly_mapM. apply renderDoc_readOnly. }
  assert (Hlf : forallb (fun ev => negb (isLoad ev))
                  (trace (mapM renderDoc docs (readyWith grammar h))) = true).
  { apply loadFree_mapM. apply renderDoc_loadFree. }
  rewrite Hb. simpl. rewrite (initialize_success Hload). simpl.
  repeat split; try assumption.
  - eexists. split; [reflexivity | exact Hlf].
  - apply (filter_load_calls (loadTrace grammar) _ Hlf).
  - apply renderDoc_readOnly.
  - apply renderDoc_loadFree.
Qed.

(** C9 in the sample environment, building one document. *)
Lemma render_has_no_side_effects_witness :
  store (build Sample.env [sampleDoc] emptyConfig) = Sample.ready.
Proof.
  exact (proj1 (render_has_no_side_effects [sampleDoc] sample_loads)).
Defined.

(** C6.  When loading succeeds, [langs] is the array of the bundled
    language typescript, the grammar parsed from ./typespec.json as data,
    and the bundled language yaml, in this order; and initialization
    constructs the highlighter once, with the configured theme and exactly
    this array. *)
Theorem highlighter_language_set (env : Env) (grammar : Json) (h : Highlighter) :
  loadSuccess env grammar h ->
  (exists text, readFileSync env (lit "./typespec.json") = Ok text
                /\ JSON_parse env text = Ok grammar)
  /\ value (ShikiConfig.langs env emptyConfig)
     = Ok [BundledLang (lit "typescript"); GrammarData grammar;
           BundledLang (lit "yaml")]
  /\ filter (fun ev => match ev with GetHighlighter _ => true | _ => false end)
            (trace (initialize env emptyConfig))
     = [GetHighlighter
          {| opt_themes := [lit "rose-pine-dawn"];
             opt_langs := [BundledLang (lit "typescript"); GrammarData grammar;
                           BundledLang (lit "yaml")] |}]
  /\ In (lit "md", SetHighlight h)
        (libraryAmendments (store (initialize env emptyConfig))).
Proof.
  intros Hload. rewrite (initialize_success Hload).
  destruct Hload as (text & shiki & H1 & H2 & H3 & H4).
  repeat split.
  - exists text. split; assumption.
  - unfold ShikiConfig.langs, bind, call, lift. simpl.
    fold grammarPath. rewrite H1. simpl. rewrite H2. reflexivity.
  - simpl. right. left. reflexivity.
Qed.

(** C6 in the sample environment. *)
Lemma highlighter_language_set_witness :
  value (ShikiConfig.langs Sample.env emptyConfig)
  = Ok [BundledLang (lit "typescript"); GrammarData Sample.grammar;
        BundledLang (lit "yaml")].
Proof.
  exact (proj1 (proj2 (highlighter_language_set sample_loads))).
Defined.

(** C7.  When the grammar file cannot be read or parsed, the shiki package
    cannot be imported, or the highlighter cannot be constructed, the error
    is the result of initialization itself, the build ends with that error,
    and the build makes no call after the failing one: no document is
    rendered and the highlighter is never called. *)
Theorem load_failure_halts_build (env : Env) (e : Error) (docs : list Document) :
  loadFailure env e ->
  value (initialize env emptyConfig) = Throw e
  /\ value (build env docs emptyConfig) = Throw e
  /\ trace (build env docs emptyConfig) = trace (initialize env emptyConfig)
  /\ forallb isLoad (trace (build env docs emptyConfig)) = true.
Proof.
  intros Hfail. destruct (initialize_failure Hfail) as [Hv Ht].
  rewrite build_after_initialize.
  rewrite (bind_value_throw _ _ _ Hv), (bind_trace_throw _ _ _ Hv).
  repeat split; assumption.
Qed.

(** C7 in the sample environment without the grammar file. *)
Lemma load_failure_halts_build_witness :
  value (build Sample.envNoFile [sampleDoc] emptyConfig)
  = Throw (IOError grammarPath).
Proof.
  exact (proj1 (proj2 (load_failure_halts_build [sampleDoc] sample_file_missing))).
Defined.

(** ** Rendering without a highlight option *)

Lemma mapM_pure {A B} (f : A -> M B) (g : A -> B) (l : list A) (s : UserConfig) :
  (forall a, In a l -> forall s', f a s' = ret (g a) s') ->
  mapM f l s = ret (map g l) s.
Proof.
  revert s. induction l as [|a l IH]; intros s H; [reflexivity|].
  simpl. unfold bind. rewrite (H a (or_introl eq_refl)). simpl.
  rewrite IH by (intros a' Ha'; apply H; right; exact Ha'). reflexivity.
Qed.

Lemma renderBlock_plain md b s :
  md_highlight md = None -> renderBlock md b s = ret (plainBlock b) s.
Proof.
  intros H. destruct b; try reflexivity.
  simpl. unfold fence. rewrite H. reflexivity.
Qed.

Lemma renderer_plain md doc s :
  md_highlight md = None ->
  renderer md doc s = {| trace := []; store := s; value := Ok (plainHtml doc) |}.
Proof.
  intros H. unfold renderer, bind.
  rewrite (mapM_pure (renderBlock md) plainBlock)
    by (intros; apply renderBlock_plain, H).
  reflexivity.
Qed.

Lemma baseRender_plain doc s :
  baseRender doc s = {| trace := []; store := s; value := Ok (plainHtml doc) |}.
Proof. unfold baseRender, render. simpl. apply renderer_plain. reflexivity. Qed.

(** C2 (as amended).  Once the module has been loaded and its export has
    run, and until the listener of eleventy.before has run, a render call
    returns at once and does not fail: its result is the base conversion of
    the document, in which a fenced block is escaped and wrapped without
    highlighting, and the highlighter is not called. *)
Theorem render_before_initialization (env : Env) (text : jsstring)
  (grammar : Json) (doc : Document) :
  readFileSync env grammarPath = Ok text ->
  JSON_parse env text = Ok grammar ->
  let cfg := store (configure env emptyConfig) in
  md_highlight (engineOf cfg) = None
  /\ renderDoc doc cfg = baseRender doc cfg
  /\ renderDoc doc cfg
     = {| trace := []; store := cfg; value := Ok (plainHtml doc) |}.
Proof.
  intros H1 H2 cfg. subst cfg.
  rewrite configure_cases, H1, H2. simpl store.
  rewrite renderDoc_unfold, engineOf_configured.
  fold (baseRender doc). rewrite baseRender_plain.
  repeat split; reflexivity.
Qed.

(** C2 (as amended) in the sample environment. *)
Lemma render_before_initialization_witness :
  renderDoc sampleDoc Sample.configured
  = {| trace := []; store := Sample.configured;
       value := Ok (plainHtml sampleDoc) |}.
Proof.
  exact (proj2 (proj2 (render_before_initialization Sample.env sampleDoc
                         eq_refl eq_refl))).
Defined.

(** C2 fails as stated: in the sample environment, before the listener of
    eleventy.before has run, rendering the sample document returns output,
    with the typescript block escaped and not highlighted; no error is
    raised and the highlighter is not called. *)
Lemma render_before_initialization_is_silent :
  renderDoc sampleDoc Sample.configured
  = {| trace := [];
       store := Sample.configured;
       value := Ok (lit "<p>Hello</p>" ++ [10%N]
                    ++ lit "<pre><code class=" ++ dq ++ lit "language-typescript"
                    ++ dq ++ lit ">let x = 1;" ++ [10%N]
                    ++ lit "</code></pre>" ++ [10%N]) |}.
Proof. reflexivity. Qed.

(** ** A highlighter that throws *)

Lemma mapM_throws {A B} (f : A -> M B) (pre post : list A) (a : A)
  (s : UserConfig) (e : Error) :
  (forall x, readOnly (f x)) ->
  isOk (value (mapM f pre s)) = true ->
  value (f a s) = Throw e ->
  value (mapM f (pre ++ a :: post) s) = Throw e.
Proof.
  intros Hro. revert s. induction pre as [|x pre IH]; intros s Hpre Ha.
  - simpl. apply bind_value_throw. exact Ha.
  - simpl in *. unfold bind in *.
    destruct (value (f x s)) as [b|e'] eqn:Ex; [|discriminate].
    simpl in *. rewrite (Hro x s) in *.
    destruct (value (mapM f pre s)) as [bs|e'] eqn:Epre; [|discriminate].
    rewrite (IH s); [reflexivity | rewrite Epre; reflexivity | exact Ha].
Qed.

Lemma renderer_ok_parts md doc s :
  isOk (value (renderer md doc s)) = true ->
  isOk (value (mapM (renderBlock md) doc s)) = true.
Proof.
  unfold renderer, bind.
  destruct (value (mapM (renderBlock md) doc s)); [reflexivity | exact id].
Qed.

Lemma fence_throws plugins h info code s e :
  codeToHtml h (trim code)
    {| code_lang := langName info; code_theme := ShikiConfig.theme |} = Throw e ->
  value (fence {| md_highlight := Some (ShikiHighlight h);
                  md_plugins := plugins |} info code s) = Throw e.
Proof. intros H. unfold fence, bind. simpl. rewrite H. reflexivity. Qed.

(** C1 (as amended).  After a successful initialization, when the
    highlighter throws for the language of a fenced block (the blocks before
    it having rendered), the render call fails with the highlighter's
    error: the callback hands the language on as it is and nothing catches
    the error, so no output is returned for the document, whatever follows
    the block. *)
Theorem highlighter_error_aborts_render (env : Env) (grammar : Json)
  (h : Highlighter) (pre post : Document) (info code : jsstring) (e : Error) :
  loadSuccess env grammar h ->
  let cfg := store (initialize env emptyConfig) in
  isOk (value (renderDoc pre cfg)) = true ->
  codeToHtml h (trim code)
    {| code_lang := langName info; code_theme := ShikiConfig.theme |} = Throw e ->
  value (renderDoc (pre ++ Fence info code :: post) cfg) = Throw e.
Proof.
  intros Hload cfg Hpre Hthrow. subst cfg.
  rewrite (initialize_success Hload) in *. simpl store in *.
  rewrite renderDoc_unfold in *. rewrite engineOf_ready in *.
  unfold render in *. simpl fold_left in *.
  unfold renderer at 1. apply bind_value_throw.
  apply mapM_throws.
  - intros b. apply renderBlock_readOnly.
  - apply renderer_ok_parts. exact Hpre.
  - simpl. apply fence_throws. exact Hthrow.
Qed.

(** C1 (as amended) in the sample environment, for the python block. *)
Lemma highlighter_error_aborts_render_witness :
  value (renderDoc pythonDoc Sample.ready) = Throw (LanguageError (lit "python")).
Proof.
  exact (highlighter_error_aborts_render
           [Paragraph [Text (lit "Hello")]] [Paragraph [Text (lit "Bye")]]
           (lit "python") (lit "print(1)" ++ [10%N])
           (e := LanguageError (lit "python")) sample_loads eq_refl eq_refl).
Defined.

(** C1 fails as stated: python is not among the languages the highlighter
    was constructed with, and rendering the document that holds the python
    block does not return the block unhighlighted: the render call, and the
    build, end with the highlighter's error. *)
Lemma unknown_language_aborts_render :
  existsb (jseqb (lit "python")) (Sample.loaded (shikiOptions Sample.grammar))
  = false
  /\ value (renderDoc pythonDoc Sample.ready)
     = Throw (LanguageError (lit "python"))
  /\ value (build Sample.env [pythonDoc] emptyConfig)
     = Throw (LanguageError (lit "python")).
Proof. repeat split; reflexivity. Qed.

(** ** Registration order *)

Lemma engineOf_toc :
  engineOf (store (TocConfig.module_exports emptyConfig))
  = {| md_highlight := None;
       md_plugins := [(markdownItFootnote, NoOptions);
                      (markdownItTableOfContents, TocOpts TocConfig.tocOptions)] |}.
Proof. reflexivity. Qed.

(** C5.  The callback of the footnote and table-of-contents configuration
    applies the footnote plugin first and the table-of-contents plugin
    second, after whatever was applied before; the engine built from the
    configuration holds the two in this order, with the options of the
    source; and in every conversion the table-of-contents plugin works on
    the document as the footnote plugin left it. *)
Theorem footnote_registered_before_toc :
  (forall md,
     md_plugins (TocConfig.amendment md)
     = md_plugins md
       ++ [(markdownItFootnote, NoOptions);
           (markdownItTableOfContents, TocOpts TocConfig.tocOptions)])
  /\ md_plugins (engineOf (store (TocConfig.module_exports emptyConfig)))
     = [(markdownItFootnote, NoOptions);
        (markdownItTableOfContents,
         TocOpts {| listType := lit "ol"; includeLevel := [1; 2; 3; 4] |})]
  /\ (forall doc cfg,
        renderDoc doc (store (TocConfig.module_exports emptyConfig))
        = renderer (engineOf (store (TocConfig.module_exports emptyConfig)))
                   (Toc.pass TocConfig.tocOptions (Footnote.pass doc))
                   (store (TocConfig.module_exports emptyConfig))
        /\ render (TocConfig.amendment markdownIt) doc cfg
           = renderer (TocConfig.amendment markdownIt)
                      (Toc.pass TocConfig.tocOptions (Footnote.pass doc)) cfg).
Proof.
  split; [|split].
  - intros md. unfold TocConfig.amendment, md_use. simpl.
    rewrite <- app_assoc. reflexivity.
  - reflexivity.
  - intros doc cfg. split.
    + rewrite renderDoc_unfold. reflexivity.
    + reflexivity.
Qed.

(** ** Documents without extension syntax *)

Lemma footnote_labels_free doc :
  forallb extensionFree doc = true -> Footnote.labels doc = [].
Proof.
  induction doc as [|b doc IH]; [reflexivity|].
  simpl. intros H. apply andb_true_iff in H as [Hb Hdoc].
  unfold Footnote.labels in *. simpl. rewrite (IH Hdoc).
  destruct b; try reflexivity; discriminate.
Qed.

Lemma footnote_rewrite_nil (c : list Inline) :
  map (Footnote.rewriteInline []) c = c.
Proof.
  induction c as [|i c IH]; [reflexivity|].
  simpl. rewrite IH. destruct i; reflexivity.
Qed.

Lemma footnote_pass_free doc :
  forallb extensionFree doc = true -> Footnote.pass doc = doc.
Proof.
  intros H. unfold Footnote.pass, Footnote.section.
  rewrite (footnote_labels_free doc H), app_nil_r.
  induction doc as [|b doc IH]; [reflexivity|].
  simpl in H. apply andb_true_iff in H as [Hb Hdoc].
  simpl. rewrite (IH Hdoc).
  destruct b; try reflexivity; try discriminate.
  simpl. rewrite footnote_rewrite_nil. reflexivity.
Qed.

Lemma toc_pass_free o doc :
  forallb extensionFree doc = true -> Toc.pass o doc = doc.
Proof.
  unfold Toc.pass.
  assert (G : forall whole, forallb extensionFree doc = true ->
                            map (Toc.rewriteBlock o whole) doc = doc).
  { intros whole. induction doc as [|b doc IH]; intros H; [reflexivity|].
    simpl in H. apply andb_true_iff in H as [Hb Hdoc].
    simpl. rewrite (IH Hdoc).
    destruct b; try reflexivity; discriminate. }
  apply G.
Qed.

Lemma plugins_free (ps : list (Plugin * PluginOptions)) doc :
  forallb extensionFree doc = true -> fold_left applyPlugin ps doc = doc.
Proof.
  intros H. induction ps as [|[p o] ps IH]; [reflexivity|].
  simpl. unfold applyPlugin at 2. simpl.
  destruct p.
  - rewrite (footnote_pass_free doc H). exact IH.
  - rewrite (toc_pass_free _ doc H). exact IH.
Qed.

Lemma mapM_ext {A B} (f g : A -> M B) (l : list A) (s : UserConfig) :
  (forall a, In a l -> forall s', f a s' = g a s') ->
  mapM f l s = mapM g l s.
Proof.
  revert s. induction l as [|a l IH]; intros s H; [reflexivity|].
  simpl. unfold bind. rewrite (H a (or_introl eq_refl)).
  destruct (value (g a s)); [|reflexivity].
  rewrite IH by (intros a' Ha'; apply H; right; exact Ha'). reflexivity.
Qed.

Lemma renderer_free md doc s :
  forallb extensionFree doc = true ->
  renderer md doc s = renderer markdownIt doc s.
Proof.
  intros H. unfold renderer, bind.
  rewrite (mapM_ext (renderBlock md) (renderBlock markdownIt)); [reflexivity|].
  intros b Hb s'. rewrite forallb_forall in H. specialize (H b Hb).
  destruct b; try reflexivity; discriminate.
Qed.

(** C8.  For a document with no footnote reference or definition, no
    table-of-contents placeholder and no fenced code block, rendering with
    the engine of any configuration (whatever callbacks of the three
    modules were registered, in whatever order) gives the outcome of the
    base conversion: the same output and no call to the highlighter. *)
Theorem extensions_noop_without_syntax (cfg : UserConfig) (doc : Document) :
  forallb extensionFree doc = true ->
  renderDoc doc cfg = baseRender doc cfg
  /\ forall s, render (engineOf cfg) doc s = render markdownIt doc s.
Proof.
  intros H.
  assert (E : forall s, render (engineOf cfg) doc s = render markdownIt doc s).
  { intros s. unfold render. rewrite !plugins_free by exact H.
    apply renderer_free, H. }
  split; [|exact E].
  rewrite renderDoc_unfold. apply E.
Qed.

(** C8 for the three configurations and the prose document. *)
Lemma extensions_noop_without_syntax_witness :
  renderDoc proseDoc (store (TocConfig.module_exports emptyConfig))
  = baseRender proseDoc (store (TocConfig.module_exports emptyConfig))
  /\ renderDoc proseDoc (store (FootnoteConfig.module_exports emptyConfig))
     = baseRender proseDoc (store (FootnoteConfig.module_exports emptyConfig))
  /\ renderDoc proseDoc Sample.ready = baseRender proseDoc Sample.ready.
Proof.
  split; [|split].
  - exact (proj1 (extensions_noop_without_syntax
                    (store (TocConfig.module_exports emptyConfig))
                    proseDoc eq_refl)).
  - exact (proj1 (extensions_noop_without_syntax
                    (store (FootnoteConfig.module_exports emptyConfig))
                    proseDoc eq_refl)).
  - exact (proj1 (extensions_noop_without_syntax Sample.ready proseDoc eq_refl)).
Defined.

(** ** The table of contents *)

Section TocForest.

Lemma span_app l hs : hs = fst (Toc.span l hs) ++ snd (Toc.span l hs).
Proof.
  induction hs as [|h hs IH]; [reflexivity|].
  simpl. destruct (l <? fst h); [|reflexivity].
  destruct (Toc.span l hs) as [below others]. simpl in *. congruence.
Qed.

Lemma span_below l hs : Forall (fun h => l < fst h) (fst (Toc.span l hs)).
Proof.
  induction hs as [|h hs IH]; [constructor|].
  simpl. destruct (l <? fst h) eqn:E; [|constructor].
  destruct (Toc.span l hs) as [below others]. simpl in *.
  constructor; [apply Nat.ltb_lt, E | exact IH].
Qed.

Lemma span_others l hs h tl : snd (Toc.span l hs) = h :: tl -> fst h <= l.
Proof.
  induction hs as [|h' hs IH]; [discriminate|].
  simpl. destruct (l <? fst h') eqn:E.
  - destruct (Toc.span l hs) as [below others]. exact IH.
  - simpl. intros H. injection H as <- _. apply Nat.ltb_ge, E.
Qed.

Lemma span_length l hs :
  List.length (fst (Toc.span l hs)) <= List.length hs
  /\ List.length (snd (Toc.span l hs)) <= List.length hs.
Proof.
  rewrite (span_app l hs) at 2 4. rewrite length_app. lia.
Qed.

Lemma forestN_entries n :
  forall hs, List.length hs <= n -> Toc.entries (Toc.forestN n hs) = hs.
Proof.
  induction n as [|n IH]; intros hs H.
  - destruct hs; [reflexivity | simpl in H; lia].
  - destruct hs as [|[l title] rest]; [reflexivity|].
    simpl in H. destruct (span_length l rest) as [Hb Ho].
    unfold Toc.entries in *. simpl.
    rewrite (IH (fst (Toc.span l rest))) by lia.
    rewrite (IH (snd (Toc.span l rest))) by lia.
    rewrite <- span_app. reflexivity.
Qed.

Lemma forestN_stable n :
  forall m hs, List.length hs <= n -> List.length hs <= m ->
               Toc.forestN n hs = Toc.forestN m hs.
Proof.
  induction n as [|n IH]; intros m hs Hn Hm.
  - destruct hs; [destruct m; reflexivity | simpl in Hn; lia].
  - destruct hs as [|[l title] rest]; [destruct m; reflexivity|].
    destruct m as [|m]; [simpl in Hm; lia|].
    simpl in Hn, Hm. destruct (span_length l rest) as [Hb Ho].
    simpl. rewrite (IH m (fst (Toc.span l rest))) by lia.
    rewrite (IH m (snd (Toc.span l rest))) by lia. reflexivity.
Qed.

Lemma forest_entries hs : Toc.entries (Toc.forest hs) = hs.
Proof. apply forestN_entries. apply Nat.le_refl. Qed.

Lemma forest_cons l title rest :
  Toc.forest ((l, title) :: rest)
  = Toc.entry l title (Toc.forest (fst (Toc.span l rest)))
    :: Toc.forest (snd (Toc.span l rest)).
Proof.
  unfold Toc.forest. simpl. destruct (span_length l rest) as [Hb Ho].
  rewrite (@forestN_stable (List.length rest)
             (List.length (fst (Toc.span l rest))) (fst (Toc.span l rest)))
    by lia.
  rewrite (@forestN_stable (List.length rest)
             (List.length (snd (Toc.span l rest))) (snd (Toc.span l rest)))
    by lia.
  reflexivity.
Qed.

Lemma listHtml_ol (es : list Toc.Entry) :
  Toc.listHtml (listType TocConfig.tocOptions) es
  = lit "<ol>" ++ flat_map (Toc.entryHtml (lit "ol")) es ++ lit "</ol>".
Proof. reflexivity. Qed.

Lemma regroup {A} (pre o a b c k post : list A) :
  pre ++ (o ++ (a ++ b ++ c) ++ k) ++ post
  = (pre ++ o) ++ a ++ b ++ c ++ k ++ post.
Proof. rewrite <- !app_assoc. reflexivity. Qed.

End TocForest.

Lemma included_range (h : nat * jsstring) :
  Toc.included TocConfig.tocOptions h = (1 <=? fst h) && (fst h <=? 4).
Proof.
  destruct h as [l title]. unfold Toc.included. simpl.
  do 5 (destruct l as [|l]; [reflexivity|]). reflexivity.
Qed.

Lemma headings_footnote_pass doc :
  Toc.headings (Footnote.pass doc) = Toc.headings doc.
Proof.
  unfold Footnote.pass, Toc.headings. rewrite flat_map_app.
  assert (S : flat_map (fun b => match b with
                                 | Heading l t => [(l, t)]
                                 | _ => []
                                 end) (Footnote.section doc) = []).
  { unfold Footnote.section. destruct (Footnote.labels doc); reflexivity. }
  rewrite S, app_nil_r. clear S.
  generalize (Footnote.labels doc) as ls. intros ls.
  induction doc as [|b doc IH]; [reflexivity|].
  simpl. rewrite flat_map_app, IH. destruct b; reflexivity.
Qed.

Lemma marker_footnote_pass doc :
  In TocMarker doc -> In TocMarker (Footnote.pass doc).
Proof.
  intros H. unfold Footnote.pass. apply in_or_app. left.
  apply in_flat_map. exists TocMarker. split; [exact H | left; reflexivity].
Qed.

Lemma contains_block (b : Block) (doc : Document) :
  In b doc -> contains (plainHtml doc) (plainBlock b).
Proof.
  intros H. apply in_split in H as [pre [post ->]].
  exists (plainHtml pre), (plainHtml post).
  unfold plainHtml. rewrite map_app, concat_app. reflexivity.
Qed.

Lemma contains_trans (a b c : jsstring) :
  contains a b -> contains b c -> contains a c.
Proof.
  intros [p1 [q1 ->]] [p2 [q2 ->]].
  exists (p1 ++ p2), (q2 ++ q1). rewrite <- !app_assoc. reflexivity.
Qed.

Lemma render_toc doc :
  renderDoc doc (store (TocConfig.module_exports emptyConfig))
  = renderer tocEngine (Toc.pass TocConfig.tocOptions (Footnote.pass doc))
             (store (TocConfig.module_exports emptyConfig)).
Proof. rewrite renderDoc_unfold. reflexivity. Qed.

(** C3.  With the footnote and table-of-contents configuration, rendering a
    document that holds the placeholder succeeds, and the output contains
    one list, an [ol] element.  Its entries, those nested in other entries
    included, are the headings of the document whose level is between 1 and
    4, once each and in document order, so that a heading of another level
    has no entry; the list is empty when there is none.  An entry is an
    [li] element holding the link to the heading and then, when deeper
    headings follow the heading, one nested [ol] with their entries: the
    entries nested in a heading are those of the headings that follow it up
    to the first one that is not deeper, and the headings from that one on
    follow it in the same list. *)
Theorem toc_lists_headings (doc : Document) :
  In TocMarker doc ->
  let cfg := store (TocConfig.module_exports emptyConfig) in
  let inRange :=
    filter (fun h => (1 <=? fst h) && (fst h <=? 4)) (Toc.headings doc) in
  let toc := Toc.emit TocConfig.tocOptions doc in
  (exists before after,
     value (renderDoc doc cfg)
     = Ok (before ++ lit "<ol>" ++ flat_map (Toc.entryHtml (lit "ol")) toc
           ++ lit "</ol>" ++ after))
  /\ (forall l title children,
        Toc.entryHtml (lit "ol") (Toc.entry l title children)
        = lit "<li><a href=" ++ dq ++ lit "#" ++ escapeHtml (Toc.slugify title)
          ++ dq ++ lit ">" ++ escapeHtml title ++ lit "</a>"
          ++ match children with
             | [] => []
             | _ :: _ =>
                 lit "<ol>" ++ flat_map (Toc.entryHtml (lit "ol")) children
                 ++ lit "</ol>"
             end
          ++ lit "</li>")
  /\ Toc.entries toc = inRange
  /\ toc = Toc.forest inRange
  /\ Toc.forest [] = []
  /\ (forall l title rest,
        Toc.forest ((l, title) :: rest)
        = Toc.entry l title (Toc.forest (fst (Toc.span l rest)))
          :: Toc.forest (snd (Toc.span l rest))
        /\ rest = fst (Toc.span l rest) ++ snd (Toc.span l rest)
        /\ Forall (fun h => l < fst h) (fst (Toc.span l rest))
        /\ (forall h tl, snd (Toc.span l rest) = h :: tl -> fst h <= l)).
Proof.
  intros Hmark cfg inRange toc. subst cfg inRange toc.
  assert (Hemit : Toc.emit TocConfig.tocOptions doc
                  = Toc.forest (filter (fun h => (1 <=? fst h) && (fst h <=? 4))
                                       (Toc.headings doc))).
  { unfold Toc.emit. f_equal. apply filter_ext. exact included_range. }
  split; [|split; [|split; [|split; [|split]]]].
  - rewrite render_toc. unfold tocEngine.
    rewrite renderer_plain by reflexivity. cbn [value].
    destruct (contains_block
                (HtmlBlock (Toc.html TocConfig.tocOptions (Footnote.pass doc)))
                (Toc.pass TocConfig.tocOptions (Footnote.pass doc)))
      as [pre [post Hsplit]].
    { unfold Toc.pass.
      apply (in_map (Toc.rewriteBlock TocConfig.tocOptions (Footnote.pass doc))
                    _ TocMarker).
      apply marker_footnote_pass, Hmark. }
    exists (pre ++ Toc.containerOpen), (Toc.containerClose ++ post).
    rewrite Hsplit. cbn [plainBlock]. unfold Toc.html.
    rewrite listHtml_ol. unfold Toc.emit. rewrite headings_footnote_pass.
    f_equal. apply regroup.
  - intros l title children. destruct children; reflexivity.
  - rewrite Hemit. apply forest_entries.
  - exact Hemit.
  - reflexivity.
  - intros l title rest. split; [apply forest_cons|].
    split; [apply span_app|]. split; [apply span_below|].
    intros h tl. apply span_others.
Qed.

(** C3 for the sample document: the level-5 heading has no entry. *)
Lemma toc_lists_headings_witness :
  Toc.entries (Toc.emit TocConfig.tocOptions tocDoc)
  = filter (fun h => (1 <=? fst h) && (fst h <=? 4)) (Toc.headings tocDoc).
Proof.
  exact (proj1 (proj2 (proj2 (toc_lists_headings tocDoc (or_introl eq_refl))))).
Defined.

(** The list for headings of levels 3, 1 and 4: one list, the level-4
    heading nested in the level-1 heading. *)
Example toc_shallower_after_deeper :
  Toc.listHtml (lit "ol")
    (Toc.forest [(3, lit "c"); (1, lit "a"); (4, lit "d")])
  = lit "<ol><li><a href=" ++ dq ++ lit "#c" ++ dq ++ lit ">c</a></li>"
    ++ lit "<li><a href=" ++ dq ++ lit "#a" ++ dq ++ lit ">a</a>"
    ++ lit "<ol><li><a href=" ++ dq ++ lit "#d" ++ dq ++ lit ">d</a></li></ol>"
    ++ lit "</li></ol>".
Proof. reflexivity. Qed.

(* ================================================================= *)
(** * Further properties of the configuration *)

(** ** White space around a block *)

Lemma trimStart_blank (s : jsstring) :
  forallb isWhiteSpace s = true -> trimStart s = [].
Proof.
  induction s as [|c s IH]; [reflexivity|].
  simpl. intros H. apply andb_true_iff in H as [Hc Hs].
  rewrite Hc. exact (IH Hs).
Qed.

Lemma trimStart_app (a b : jsstring) :
  trimStart (a ++ b)
  = match trimStart a with
    | [] => trimStart b
    | _ :: _ => trimStart a ++ b
    end.
Proof.
  induction a as [|c a IH]; [reflexivity|].
  simpl. destruct (isWhiteSpace c); [exact IH | reflexivity].
Qed.

Lemma trimEnd_blank_suffix (s post : jsstring) :
  forallb isWhiteSpace post = true -> trimEnd (s ++ post) = trimEnd s.
Proof.
  intros H. unfold trimEnd. rewrite rev_app_distr, trimStart_app.
  rewrite trimStart_blank by (rewrite forallb_rev; exact H). reflexivity.
Qed.

Lemma trim_strip (pre s post : jsstring) :
  forallb isWhiteSpace pre = true ->
  forallb isWhiteSpace post = true ->
  trim (pre ++ s ++ post) = trim s.
Proof.
  intros Hpre Hpost. unfold trim.
  rewrite trimStart_app, (trimStart_blank pre Hpre), trimStart_app.
  destruct (trimStart s) as [|c r] eqn:E.
  - rewrite (trimStart_blank post Hpost). reflexivity.
  - apply trimEnd_blank_suffix, Hpost.
Qed.

Lemma trim_idempotent (s : jsstring) : trim (trim s) = trim s.
Proof.
  destruct (trim_split s) as (pre & post & Hs & Hpre & Hpost).
  rewrite Hs at 2. symmetry. apply trim_strip; assumption.
Qed.

(** X1.  The highlight callback does not see the white space around the
    code: a code string with white space added before and after it gives
    the same call to the highlighter and the same result, and so does a
    code string that was trimmed beforehand. *)
Theorem highlight_ignores_surrounding_space (h : Highlighter)
  (pre code post lang : jsstring) (cfg : UserConfig) :
  forallb isWhiteSpace pre = true ->
  forallb isWhiteSpace post = true ->
  ShikiConfig.highlight h (pre ++ code ++ post) lang cfg
  = ShikiConfig.highlight h code lang cfg
  /\ ShikiConfig.highlight h (trim code) lang cfg
     = ShikiConfig.highlight h code lang cfg.
Proof.
  intros Hpre Hpost. unfold ShikiConfig.highlight.
  rewrite (trim_strip pre code post Hpre Hpost), trim_idempotent.
  split; reflexivity.
Qed.

(** X1 with a tab and a space before the code and two line ends after. *)
Lemma highlight_ignores_surrounding_space_witness :
  ShikiConfig.highlight (Sample.highlighter (shikiOptions Sample.grammar))
    ([9%N; 32%N] ++ lit "let x = 1;" ++ [13%N; 10%N]) (lit "typescript")
    Sample.ready
  = ShikiConfig.highlight (Sample.highlighter (shikiOptions Sample.grammar))
      (lit "let x = 1;") (lit "typescript") Sample.ready.
Proof.
  exact (proj1 (highlight_ignores_surrounding_space
                  (Sample.highlighter (shikiOptions Sample.grammar))
                  [9%N; 32%N] (lit "let x = 1;") [13%N; 10%N]
                  (lit "typescript") Sample.ready eq_refl eq_refl)).
Defined.

(** X2.  A code string made of white space only, the empty one included,
    reaches the highlighter as the empty string. *)
Theorem highlight_blank_code (h : Highlighter) (code lang : jsstring)
  (cfg : UserConfig) :
  forallb isWhiteSpace code = true ->
  trim code = []
  /\ ShikiConfig.highlight h code lang cfg
     = call (CodeToHtml [] {| code_lang := lang; code_theme := ShikiConfig.theme |})
            (codeToHtml h [] {| code_lang := lang;
                                code_theme := ShikiConfig.theme |}) cfg.
Proof.
  intros H.
  assert (E : trim code = []).
  { unfold trim. rewrite (trimStart_blank code H). reflexivity. }
  split; [exact E|]. unfold ShikiConfig.highlight. rewrite E. reflexivity.
Qed.

(** X2 for a block that holds one line end. *)
Lemma highlight_blank_code_witness : trim [10%N] = [].
Proof.
  exact (proj1 (highlight_blank_code
                  (Sample.highlighter (shikiOptions Sample.grammar))
                  [10%N] (lit "typescript") Sample.ready eq_refl)).
Defined.

(** ** The calls a render makes *)

Lemma mapM_cons_trace {A B} (f : A -> M B) (a : A) (l : list A) (s : UserConfig) :
  trace (mapM f (a :: l) s)
  = trace (f a s)
    ++ (if isOk (value (f a s)) then trace (mapM f l (store (f a s))) else []).
Proof.
  simpl. unfold bind.
  destruct (value (f a s)) as [b|e]; simpl; [|symmetry; apply app_nil_r].
  destruct (value (mapM f l (store (f a s)))); simpl;
    [rewrite app_nil_r|]; reflexivity.
Qed.

Lemma mapM_cons_ok {A B} (f : A -> M B) (a : A) (l : list A) (s : UserConfig) :
  isOk (value (mapM f (a :: l) s))
  = isOk (value (f a s)) && isOk (value (mapM f l (store (f a s)))).
Proof.
  simpl. unfold bind.
  destruct (value (f a s)) as [b|e]; simpl; [|reflexivity].
  destruct (value (mapM f l (store (f a s)))); reflexivity.
Qed.

Lemma fence_call h ps info content s :
  let md := {| md_highlight := Some (ShikiHighlight h); md_plugins := ps |} in
  trace (fence md info content s) = [callEvent (fenceCall info content)]
  /\ isOk (value (fence md info content s)) = accepts h (fenceCall info content).
Proof.
  unfold fence, bind, accepts, fenceCall, callEvent. simpl.
  destruct (codeToHtml h (trim content) _) as [html|e]; split; reflexivity.
Qed.

Lemma blocks_calls h ps doc s :
  let md := {| md_highlight := Some (ShikiHighlight h); md_plugins := ps |} in
  trace (mapM (renderBlock md) doc s)
  = map callEvent (untilThrow h (fenceCalls doc))
  /\ isOk (value (mapM (renderBlock md) doc s))
     = forallb (accepts h) (fenceCalls doc).
Proof.
  intros md. induction doc as [|b doc [IHt IHv]]; [split; reflexivity|].
  rewrite mapM_cons_trace, mapM_cons_ok.
  rewrite (renderBlock_readOnly md b s), IHt, IHv.
  destruct b; try (split; reflexivity).
  destruct (fence_call h ps info content s) as [Ht Hv].
  change (renderBlock md (Fence info content) s) with (fence md info content s).
  fold md in Ht, Hv. rewrite Ht, Hv.
  unfold fenceCalls. simpl.
  destruct (accepts h (fenceCall info content)); split; reflexivity.
Qed.

Lemma renderer_outcome md doc s :
  trace (renderer md doc s) = trace (mapM (renderBlock md) doc s)
  /\ isOk (value (renderer md doc s))
     = isOk (value (mapM (renderBlock md) doc s)).
Proof.
  unfold renderer, bind.
  destruct (value (mapM (renderBlock md) doc s)); simpl;
    [rewrite app_nil_r|]; split; reflexivity.
Qed.

Lemma ready_calls g h doc :
  trace (renderDoc doc (readyWith g h))
  = map callEvent (untilThrow h (fenceCalls doc))
  /\ isOk (value (renderDoc doc (readyWith g h)))
     = forallb (accepts h) (fenceCalls doc).
Proof.
  rewrite renderDoc_unfold, engineOf_ready. unfold render. simpl fold_left.
  destruct (renderer_outcome
              {| md_highlight := Some (ShikiHighlight h); md_plugins := [] |}
              doc (readyWith g h)) as [Ht Hv].
  rewrite Ht, Hv. apply blocks_calls.
Qed.

Lemma untilThrow_all h cs :
  forallb (accepts h) cs = true -> untilThrow h cs = cs.
Proof.
  induction cs as [|c cs IH]; [reflexivity|].
  simpl. intros H. apply andb_true_iff in H as [Hc Hcs].
  rewrite Hc, (IH Hcs). reflexivity.
Qed.

(** X3.  After a successful initialization, a render calls the highlighter
    once for each fenced block, in document order, with the trimmed content
    of the block, the first word of its info string and the configured
    theme, and stops at the first call the highlighter throws for: the
    blocks after it are not highlighted.  A render that succeeds has made
    the call of every fenced block. *)
Theorem render_calls_in_document_order (env : Env) (grammar : Json)
  (h : Highlighter) (doc : Document) :
  loadSuccess env grammar h ->
  let o := renderDoc doc (store (initialize env emptyConfig)) in
  trace o = map callEvent (untilThrow h (fenceCalls doc))
  /\ (isOk (value o) = true -> trace o = map callEvent (fenceCalls doc)).
Proof.
  intros Hload o. subst o. rewrite (initialize_success Hload). simpl store.
  destruct (ready_calls grammar h doc) as [Ht Hv]. split; [exact Ht|].
  rewrite Ht, Hv. intros Hall. rewrite (untilThrow_all h _ Hall). reflexivity.
Qed.

(** X3 for the python document: one call, for the python block. *)
Lemma render_calls_in_document_order_witness :
  trace (renderDoc pythonDoc Sample.ready)
  = [CodeToHtml (lit "print(1)")
       {| code_lang := lit "python"; code_theme := ShikiConfig.theme |}].
Proof.
  exact (proj1 (render_calls_in_document_order pythonDoc sample_loads)).
Defined.

(** X4.  After a successful initialization, a render succeeds exactly when
    the highlighter returns for the call of every fenced block of the
    document; a document without fenced blocks always renders. *)
Theorem render_succeeds_iff_all_accepted (env : Env) (grammar : Json)
  (h : Highlighter) (doc : Document) :
  loadSuccess env grammar h ->
  isOk (value (renderDoc doc (store (initialize env emptyConfig))))
  = forallb (accepts h) (fenceCalls doc).
Proof.
  intros Hload. rewrite (initialize_success Hload). simpl store.
  apply ready_calls.
Qed.

(** X4 for the sample document, whose one block is accepted. *)
Lemma render_succeeds_iff_all_accepted_witness :
  isOk (value (renderDoc sampleDoc Sample.ready)) = true.
Proof.
  exact (render_succeeds_iff_all_accepted sampleDoc sample_loads).
Defined.

(** ** The theme of every call *)

Lemma mapM_trace_Forall {A B} (P : Event -> Prop) (f : A -> M B) (l : list A) :
  (forall a s, Forall P (trace (f a s))) ->
  forall s, Forall P (trace (mapM f l s)).
Proof.
  intros Hf. induction l as [|a l IH]; intros s; [constructor|].
  rewrite mapM_cons_trace. apply Forall_app. split; [apply Hf|].
  destruct (isOk (value (f a s))); [apply IH | constructor].
Qed.

Lemma fence_usesTheme md info content s :
  Forall usesTheme (trace (fence md info content s)).
Proof.
  unfold fence, bind. destruct (md_highlight md) as [[h]|]; simpl.
  - destruct (codeToHtml h (trim content) _); simpl;
      repeat constructor.
  - constructor.
Qed.

Lemma renderDoc_usesTheme doc s : Forall usesTheme (trace (renderDoc doc s)).
Proof.
  rewrite renderDoc_unfold. unfold render.
  destruct (renderer_outcome (engineOf s)
              (fold_left applyPlugin (md_plugins (engineOf s)) doc) s) as [Ht _].
  rewrite Ht. apply mapM_trace_Forall.
  intros b s'. destruct b; try constructor. apply fence_usesTheme.
Qed.

(** X5.  In a build, every call to the highlighter asks for the theme
    rose-pine-dawn, and the highlighter it is made to was constructed, in
    the same build, with exactly that theme: the callback never asks for a
    theme that was not loaded. *)
Theorem calls_use_the_loaded_theme (env : Env) (docs : list Document)
  (code : jsstring) (o : CodeOptions) :
  In (CodeToHtml code o) (trace (build env docs emptyConfig)) ->
  code_theme o = lit "rose-pine-dawn"
  /\ exists opts,
       In (GetHighlighter opts) (trace (build env docs emptyConfig))
       /\ opt_themes opts = [code_theme o].
Proof.
  rewrite build_after_initialize. unfold bind. rewrite initialize_cases.
  destruct (readFileSync env grammarPath) as [text|e]; simpl;
    [|intros [H|[]]; discriminate].
  destruct (JSON_parse env text) as [g|e]; simpl;
    [|intros [H|[]]; discriminate].
  destruct (import env (lit "shiki")) as [sh|e]; simpl;
    [|intros [H|[H|[]]]; discriminate].
  destruct (getHighlighter sh (shikiOptions g)) as [h|e]; simpl;
    [|intros [H|[H|[H|[]]]]; discriminate].
  intros [H|[H|[H|H]]]; try discriminate.
  assert (T : usesTheme (CodeToHtml code o)).
  { pose proof (@mapM_trace_Forall _ _ usesTheme renderDoc docs
                  renderDoc_usesTheme (readyWith g h)) as F.
    rewrite Forall_forall in F. apply F, H. }
  simpl in T. split; [exact T|].
  exists (shikiOptions g). split.
  - right. right. left. reflexivity.
  - rewrite T. reflexivity.
Qed.

(** X5 for the call made when the sample document is built. *)
Lemma calls_use_the_loaded_theme_witness :
  exists opts,
    In (GetHighlighter opts) (trace (build Sample.env [sampleDoc] emptyConfig))
    /\ opt_themes opts = [lit "rose-pine-dawn"].
Proof.
  exact (proj2 (calls_use_the_loaded_theme Sample.env [sampleDoc]
                  (lit "let x = 1;")
                  {| code_lang := lit "typescript";
                     code_theme := lit "rose-pine-dawn" |}
                  (or_intror (or_intror (or_intror (or_introl eq_refl)))))).
Defined.

(** ** Callbacks in combination *)

Lemma fold_amend (l : list Amendment) :
  forall md,
    md_plugins (fold_left (fun md a => amend a md) l md)
    = md_plugins md ++ flat_map pluginsOf l
    /\ md_highlight (fold_left (fun md a => amend a md) l md)
       = lastHighlight (md_highlight md) l.
Proof.
  induction l as [|a l IH]; intros md.
  - simpl. rewrite app_nil_r. split; reflexivity.
  - simpl fold_left. destruct (IH (amend a md)) as [Hp Hh].
    rewrite Hp, Hh. destruct a; simpl.
    + rewrite <- app_assoc. split; reflexivity.
    + split; reflexivity.
    + split; reflexivity.
    + rewrite <- !app_assoc. split; reflexivity.
Qed.

(** X6.  Whatever callbacks the three modules have registered for md, and
    in whatever order, the engine's plugins are the plugins each callback
    applies, in order of registration (the empty callback and the
    highlighting callback apply none), and its highlight option is the one
    set by the last highlighting callback, or unset when there is none.
    The plugin callbacks and the highlighting callback therefore commute. *)
Theorem engine_of_combined_callbacks (cfg : UserConfig) :
  let registered := selected (lit "md") (libraryAmendments cfg) in
  md_plugins (engineOf cfg) = flat_map pluginsOf registered
  /\ md_highlight (engineOf cfg) = lastHighlight None registered
  /\ (forall h md,
        amend UseFootnoteToc (amend (SetHighlight h) md)
        = amend (SetHighlight h) (amend UseFootnoteToc md)
        /\ amend UseFootnote (amend (SetHighlight h) md)
           = amend (SetHighlight h) (amend UseFootnote md)).
Proof.
  intros registered. unfold engineOf. fold registered.
  destruct (fold_amend registered markdownIt) as [Hp Hh].
  split; [exact Hp | split; [exact Hh|]].
  intros h md. split; reflexivity.
Qed.

(** ** The listener run again *)

Lemma emit_ready env' g h :
  emit env' (lit "eleventy.before") (readyWith g h)
  = match import env' (lit "shiki") with
    | Throw e =>
        {| trace := [Import (lit "shiki")]; store := readyWith g h;
           value := Throw e |}
    | Ok shiki =>
        match getHighlighter shiki (shikiOptions g) with
        | Throw e =>
            {| trace := [Import (lit "shiki"); GetHighlighter (shikiOptions g)];
               store := readyWith g h; value := Throw e |}
        | Ok h' =>
            {| trace := [Import (lit "shiki"); GetHighlighter (shikiOptions g)];
               store :=
                 {| libraryAmendments :=
                      libraryAmendments (readyWith g h)
                      ++ [(lit "md", SetHighlight h')];
                    listeners := listeners (readyWith g h) |};
               value := Ok tt |}
        end
    end.
Proof.
  unfold emit, bind, get. simpl.
  unfold ShikiConfig.before, bind, call. simpl.
  destruct (import env' (lit "shiki")) as [shiki|e]; simpl; [|reflexivity].
  fold (langsWith g). fold (shikiOptions g).
  destruct (getHighlighter shiki (shikiOptions g)) as [h'|e]; reflexivity.
Qed.

(** X7.  When the host emits eleventy.before again after a successful
    initialization, the listener imports shiki and constructs a highlighter
    anew, from the [langs] value of the module load: the grammar file is
    not read again.  One more highlighting callback is appended to those
    registered, the earlier ones stay, and the engine uses the new
    highlighter. *)
Theorem listener_run_again (env env' : Env) (grammar : Json)
  (h h' : Highlighter) (shiki' : Shiki) :
  loadSuccess env grammar h ->
  import env' (lit "shiki") = Ok shiki' ->
  getHighlighter shiki' (shikiOptions grammar) = Ok h' ->
  let before := store (initialize env emptyConfig) in
  let o := emit env' (lit "eleventy.before") before in
  value o = Ok tt
  /\ trace o = [Import (lit "shiki"); GetHighlighter (shikiOptions grammar)]
  /\ libraryAmendments (store o)
     = libraryAmendments before ++ [(lit "md", SetHighlight h')]
  /\ selected (lit "md") (libraryAmendments (store o))
     = [Empty; SetHighlight h; SetHighlight h']
  /\ listeners (store o) = listeners before
  /\ md_highlight (engineOf (store o)) = Some (ShikiHighlight h').
Proof.
  intros Hload Hi Hg before o. subst o before.
  assert (E : store (initialize env emptyConfig) = readyWith grammar h)
    by (rewrite (initialize_success Hload); reflexivity).
  rewrite E, emit_ready, Hi, Hg.
  repeat (split; [reflexivity|]). reflexivity.
Qed.

(** X7 in the sample environment, used for both runs. *)
Lemma listener_run_again_witness :
  trace (emit Sample.env (lit "eleventy.before") Sample.ready)
  = [Import (lit "shiki"); GetHighlighter (shikiOptions Sample.grammar)].
Proof.
  exact (proj1 (proj2 (listener_run_again Sample.env sample_loads
                         (shiki' := Sample.shiki) eq_refl eq_refl))).
Defined.

(** ** Events and listeners *)

Lemma emit_no_listener env ev cfg :
  selected ev (listeners cfg) = [] ->
  emit env ev cfg = {| trace := []; store := cfg; value := Ok tt |}.
Proof.
  intros H. unfold emit, bind, get. simpl. rewrite H. reflexivity.
Qed.

Lemma selected_other {A} (k ev : jsstring) (x : A) :
  k <> ev -> selected ev [(k, x)] = [].
Proof.
  intros H. unfold selected. cbn [filter fst].
  destruct (jseqb k ev) eqn:E; [|reflexivity].
  apply jseqb_eq in E. contradiction.
Qed.

(** X8.  The highlighting configuration reacts to eleventy.before only:
    whatever the outcome of initialization, when the host emits any other
    event nothing runs, no outside call is made and the configuration is
    unchanged. *)
Theorem other_events_do_nothing (env : Env) (event : jsstring) :
  event <> lit "eleventy.before" ->
  emit env event (store (initialize env emptyConfig))
  = {| trace := []; store := store (initialize env emptyConfig);
       value := Ok tt |}.
Proof.
  intros Hev. apply emit_no_listener.
  assert (Hne : lit "eleventy.before" <> event) by congruence.
  rewrite initialize_cases.
  destruct (readFileSync env grammarPath) as [text|e]; [|reflexivity].
  destruct (JSON_parse env text) as [g|e]; [|reflexivity].
  destruct (import env (lit "shiki")) as [sh|e];
    [|apply (selected_other _ Hne)].
  destruct (getHighlighter sh (shikiOptions g)) as [h|e];
    apply (selected_other _ Hne).
Qed.

(** X8 for the event eleventy.after in the sample environment. *)
Lemma other_events_do_nothing_witness :
  emit Sample.env (lit "eleventy.after") Sample.ready
  = {| trace := []; store := Sample.ready; value := Ok tt |}.
Proof.
  refine (other_events_do_nothing Sample.env (event := lit "eleventy.after") _).
  discriminate.
Defined.

(** ** The plugin configurations *)

Lemma render_without_highlight md doc s :
  md_highlight md = None ->
  render md doc s
  = {| trace := []; store := s; value := Ok (pluginHtml (md_plugins md) doc) |}.
Proof. intros H. unfold render. apply renderer_plain, H. Qed.

(** X9.  Neither the footnote configuration nor the footnote and
    table-of-contents configuration registers a listener, so eleventy.before
    runs nothing for them; and a render with the engine of either makes no
    call to the highlighter, makes no other outside call and cannot fail,
    whatever the document holds: no highlight option is set, so every
    block, a fenced one included, is converted by the rules and the plugins
    alone, and the configuration is left as it was. *)
Theorem plugin_engines_make_no_call (env : Env) (doc : Document)
  (s : UserConfig) :
  let footnotes := store (FootnoteConfig.module_exports emptyConfig) in
  let contents := store (TocConfig.module_exports emptyConfig) in
  listeners footnotes = []
  /\ listeners contents = []
  /\ emit env (lit "eleventy.before") footnotes
     = {| trace := []; store := footnotes; value := Ok tt |}
  /\ emit env (lit "eleventy.before") contents
     = {| trace := []; store := contents; value := Ok tt |}
  /\ render (engineOf footnotes) doc s
     = {| trace := []; store := s;
          value := Ok (pluginHtml [(markdownItFootnote, NoOptions)] doc) |}
  /\ render (engineOf contents) doc s
     = {| trace := []; store := s;
          value := Ok (pluginHtml
                         [(markdownItFootnote, NoOptions);
                          (markdownItTableOfContents,
                           TocOpts TocConfig.tocOptions)] doc) |}.
Proof.
  intros footnotes contents. subst footnotes contents.
  split; [reflexivity|]. split; [reflexivity|].
  split; [apply emit_no_listener; reflexivity|].
  split; [apply emit_no_listener; reflexivity|].
  split.
  - apply (render_without_highlight
             (engineOf (store (FootnoteConfig.module_exports emptyConfig)))).
    reflexivity.
  - apply (render_without_highlight
             (engineOf (store (TocConfig.module_exports emptyConfig)))).
    reflexivity.
Qed.

(** ** What a failed load leaves behind *)

(** X10.  When the grammar file cannot be read, or its text cannot be
    parsed, the module fails while it is loaded, before its export is
    called: initialization ends with the error after the one file read,
    and the configuration, whatever it held, is left as it was, with no
    callback and no listener added. *)
Theorem unreadable_grammar_registers_nothing (env : Env) (cfg : UserConfig)
  (e : Error) :
  readFileSync env (lit "./typespec.json") = Throw e
  \/ (exists text, readFileSync env (lit "./typespec.json") = Ok text
                   /\ JSON_parse env text = Throw e) ->
  initialize env cfg
  = {| trace := [ReadFile (lit "./typespec.json")]; store := cfg;
       value := Throw e |}.
Proof.
  intros H.
  unfold initialize, configure, ShikiConfig.langs, bind, call, lift. simpl.
  destruct H as [H | [text [H1 H2]]].
  - rewrite H. reflexivity.
  - rewrite H1. simpl. rewrite H2. reflexivity.
Qed.

(** X10 in the sample environment without the grammar file, starting from
    the footnote configuration. *)
Lemma unreadable_grammar_registers_nothing_witness :
  store (initialize Sample.envNoFile
           (store (FootnoteConfig.module_exports emptyConfig)))
  = store (FootnoteConfig.module_exports emptyConfig).
Proof.
  exact (f_equal (@store unit)
           (unreadable_grammar_registers_nothing Sample.envNoFile
              (store (FootnoteConfig.module_exports emptyConfig))
              (or_introl eq_refl))).
Defined.

(** X11.  After any failure of resource loading, no highlighting callback
    is registered: every callback registered for md is the empty one, and
    the engine is a fresh instance, without plugins and without a highlight
    option. *)
Theorem failed_load_leaves_base_engine (env : Env) (e : Error) :
  loadFailure env e ->
  let cfg := store (initialize env emptyConfig) in
  (forall a, In a (selected (lit "md") (libraryAmendments cfg)) -> a = Empty)
  /\ engineOf cfg = markdownIt.
Proof.
  intros H cfg. subst cfg. rewrite initialize_cases.
  destruct H as [H1 | text H1 H2 | text g H1 H2 H3 | text g sh H1 H2 H3 H4].
  - rewrite H1. split; [intros a []|reflexivity].
  - rewrite H1, H2. split; [intros a []|reflexivity].
  - rewrite H1, H2, H3. split; [|reflexivity].
    intros a [Ha|[]]. symmetry. exact Ha.
  - rewrite H1, H2, H3, H4. split; [|reflexivity].
    intros a [Ha|[]]. symmetry. exact Ha.
Qed.

(** X11 in the sample environment without the grammar file. *)
Lemma failed_load_leaves_base_engine_witness :
  engineOf (store (initialize Sample.envNoFile emptyConfig)) = markdownIt.
Proof.
  exact (proj2 (failed_load_leaves_base_engine sample_file_missing)).
Defined.

(** ** The output of a highlighted document *)

Lemma mapM_value_ok {A B} (f : A -> M B) (g : A -> B) (l : list A)
  (s : UserConfig) :
  (forall a, readOnly (f a)) ->
  (forall a, In a l -> value (f a s) = Ok (g a)) ->
  value (mapM f l s) = Ok (map g l).
Proof.
  intros Hro. induction l as [|a l IH]; intros H; [reflexivity|].
  simpl. unfold bind. rewrite (H a (or_introl eq_refl)). simpl.
  rewrite (Hro a s).
  rewrite IH by (intros a' Ha'; apply H; right; exact Ha'). reflexivity.
Qed.

Lemma accepted_block h doc b :
  forallb (accepts h) (fenceCalls doc) = true ->
  In b doc ->
  match b with
  | Fence info content => accepts h (fenceCall info content) = true
  | _ => True
  end.
Proof.
  intros Hall Hb. destruct b; try exact I.
  rewrite forallb_forall in Hall. apply Hall.
  unfold fenceCalls. apply in_flat_map.
  exists (Fence info content). split; [exact Hb | left; reflexivity].
Qed.

Lemma highlighted_block_value h ps b s :
  match b with
  | Fence info content => accepts h (fenceCall info content) = true
  | _ => True
  end ->
  value (renderBlock {| md_highlight := Some (ShikiHighlight h);
                        md_plugins := ps |} b s)
  = Ok (highlightedBlock h b).
Proof.
  destruct b; try reflexivity.
  unfold accepts, highlightedBlock, fenceCall. simpl.
  unfold fence, bind. simpl.
  destruct (codeToHtml h (trim content) _) as [[|c html]|e];
    [reflexivity | reflexivity | discriminate].
Qed.

(** X12.  After a successful initialization, when the highlighter returns
    for every fenced block of a document, the output is the concatenation
    of what the blocks contribute: the other blocks as without
    highlighting, and a fenced block the markup the highlighter returned.
    Markup that starts with <pre is emitted as it is, followed by a line
    end, neither escaped nor wrapped; for an empty result the block is
    emitted escaped and unhighlighted, as without the option. *)
Theorem highlighted_output (env : Env) (grammar : Json) (h : Highlighter)
  (doc : Document) :
  loadSuccess env grammar h ->
  forallb (accepts h) (fenceCalls doc) = true ->
  value (renderDoc doc (store (initialize env emptyConfig)))
  = Ok (List.concat (map (highlightedBlock h) doc))
  /\ (forall info content html,
        codeToHtml h (trim content)
          {| code_lang := langName info; code_theme := ShikiConfig.theme |}
        = Ok html ->
        (startsWith (lit "<pre") html = true ->
         highlightedBlock h (Fence info content) = html ++ [10%N])
        /\ (html = [] ->
            highlightedBlock h (Fence info content)
            = plainBlock (Fence info content))).
Proof.
  intros Hload Hall. split.
  - rewrite (initialize_success Hload). simpl store.
    rewrite renderDoc_unfold, engineOf_ready. unfold render. simpl fold_left.
    unfold renderer, bind.
    rewrite (mapM_value_ok
               (renderBlock {| md_highlight := Some (ShikiHighlight h);
                               md_plugins := [] |})
               (highlightedBlock h)).
    + reflexivity.
    + intros b. apply renderBlock_readOnly.
    + intros b Hb. apply highlighted_block_value.
      apply (accepted_block h doc b Hall Hb).
  - intros info content html Hc. split.
    + intros Hpre. destruct html as [|c html]; [discriminate|].
      unfold highlightedBlock, fenceCall. cbn [fst snd]. rewrite Hc.
      unfold fenceWrap. rewrite Hpre. reflexivity.
    + intros ->. unfold highlightedBlock, fenceCall. cbn [fst snd].
      rewrite Hc. reflexivity.
Qed.

(** X12 for the sample document. *)
Lemma highlighted_output_witness :
  value (renderDoc sampleDoc Sample.ready)
  = Ok (List.concat
          (map (highlightedBlock
                  (Sample.highlighter (shikiOptions Sample.grammar)))
               sampleDoc)).
Proof.
  exact (proj1 (highlighted_output sampleDoc sample_loads eq_refl)).
Defined.
